(** * Streaming clients of [crypto_app.api.binance_websocket]

    A shallow embedding of the four stream clients
    ([BinanceWebSocketClient], [BinanceDepthClient], [BinanceKlineClient],
    [BinanceTradesClient]): their callbacks [_on_open], [_on_message],
    [_on_error], [_on_close], the reconnect policy and [connect] /
    [disconnect].

    Every handler is a function from the object's fields to the new fields
    together with the list of effects it performs (log records, threads
    started, callbacks invoked).  Handlers run one at a time. *)

From stdpp Require Import base option list numbers strings sorting.
From Stdlib Require Import ZArith Lia Ascii Sorted.

#[local] Set Warnings "-register-all".
#[local] Open Scope Z_scope.

(** ** Decoded JSON and the Python builtins applied to it *)

(** What [json.loads] returns, over the type [F] of Python floats. An
    object keeps its members in an association list; a key is looked up
    from the front. *)
Inductive json (F : Type) : Type :=
| JNull
| JBool (b : bool)
| JInt (z : Z)
| JFloat (f : F)
| JStr (s : string)
| JArr (items : list (json F))
| JObj (members : list (string * json F)).

Arguments JNull {F}.
Arguments JBool {F} b.
Arguments JInt {F} z.
Arguments JFloat {F} f.
Arguments JStr {F} s.
Arguments JArr {F} items.
Arguments JObj {F} members.

(** The library functions the clients call and that are not part of the
    repository: conversions of the builtins [float] and [int], truth of a
    float, and [json.loads]. [None] stands for a raised exception. *)
Class PyRuntime := {
  pyfloat : Type;
  float_of_int : Z -> option pyfloat;
  float_of_str : string -> option pyfloat;
  int_of_float : pyfloat -> option Z;
  int_of_str : string -> option Z;
  float_truthy : pyfloat -> bool;
  json_loads : string -> option (json pyfloat)
}.

Section Builtins.
Context {RT : PyRuntime}.

Definition value : Type := json pyfloat.

(** [float(v)] *)
Definition py_float (v : value) : option pyfloat :=
  match v with
  | JInt z => float_of_int z
  | JFloat f => Some f
  | JStr s => float_of_str s
  | JBool b => float_of_int (if b then 1 else 0)
  | JNull | JArr _ | JObj _ => None
  end.

(** [int(v)] *)
Definition py_int (v : value) : option Z :=
  match v with
  | JInt z => Some z
  | JFloat f => int_of_float f
  | JStr s => int_of_str s
  | JBool b => Some (if b then 1 else 0)
  | JNull | JArr _ | JObj _ => None
  end.

(** Truth value of [v], as [not v] and [if v] use it. *)
Definition py_truthy (v : value) : bool :=
  match v with
  | JNull => false
  | JBool b => b
  | JInt z => negb (z =? 0)
  | JFloat f => float_truthy f
  | JStr s => negb (String.eqb s EmptyString)
  | JArr items => negb (bool_decide (items = []))
  | JObj members => match members with [] => false | _ => true end
  end.

Fixpoint assoc (key : string) (members : list (string * value)) : option value :=
  match members with
  | [] => None
  | (k, v) :: rest => if String.eqb k key then Some v else assoc key rest
  end.

(** [d.get(key, dflt)]: only a dict has the method. *)
Definition py_get (d : value) (key : string) (dflt : value) : option value :=
  match d with
  | JObj members => Some (default dflt (assoc key members))
  | _ => None
  end.

Definition chars (s : string) : list value :=
  (fun c => JStr (String c EmptyString)) <$> String.list_ascii_of_string s.

(** The elements a [for] loop or a comprehension visits. *)
Definition py_iter (v : value) : option (list value) :=
  match v with
  | JArr items => Some items
  | JStr s => Some (chars s)
  | JObj members => Some ((fun kv => JStr kv.1) <$> members)
  | JNull | JBool _ | JInt _ | JFloat _ => None
  end.

(** [v[i]] for a literal index [i >= 0]. The keys of a decoded object are
    strings, so an integer subscript of a dict raises. *)
Definition py_index (v : value) (i : nat) : option value :=
  match v with
  | JArr items => items !! i
  | JStr s => chars s !! i
  | JNull | JBool _ | JInt _ | JFloat _ | JObj _ => None
  end.

(** [l[:n]] on a list, for any integer [n]: a negative bound counts from
    the end. *)
Definition slice_to {A} (l : list A) (n : Z) : list A :=
  if 0 <=? n then take (Z.to_nat n) l
  else take (Z.to_nat (Z.of_nat (length l) + n)) l.

(** [v[:n]]: lists and strings can be sliced. *)
Definition py_slice_to (v : value) (n : Z) : option value :=
  match v with
  | JArr items => Some (JArr (slice_to items n))
  | JStr s => Some (JStr (String.string_of_list_ascii (slice_to (String.list_ascii_of_string s) n)))
  | JNull | JBool _ | JInt _ | JFloat _ | JObj _ => None
  end.

End Builtins.

(** ** Effects *)

Inductive level := DEBUG | INFO | WARNING | ERROR.

(** A registered callback is known by a name. *)
Definition callback := nat.

(** What a handler does besides updating fields. [P] is the payload type of
    the message callback. A log record keeps its level and format string;
    [LogReconnecting] also keeps the two numbers the record prints. *)
Inductive effect (P : Type) : Type :=
| Log (lv : level) (text : string)
| LogReconnecting (seconds attempt : Z)
| StartWs (id : nat)
| StartReconnectWait (seconds : Z)
| CloseWs (id : nat)
| HttpGetKlines (limit : Z)
| CallOnMessage (cb : callback) (payload : P)
| CallOnError (cb : callback) (text : string).

Arguments Log {P} lv text.
Arguments LogReconnecting {P} seconds attempt.
Arguments StartWs {P} id.
Arguments StartReconnectWait {P} seconds.
Arguments CloseWs {P} id.
Arguments HttpGetKlines {P} limit.
Arguments CallOnMessage {P} cb payload.
Arguments CallOnError {P} cb text.

Definition is_message_call {P} (e : effect P) : bool :=
  match e with CallOnMessage _ _ => true | _ => false end.

Definition is_error_call {P} (e : effect P) : bool :=
  match e with CallOnError _ _ => true | _ => false end.

Definition is_start_ws {P} (e : effect P) : bool :=
  match e with StartWs _ => true | _ => false end.

Definition is_reconnect_wait {P} (e : effect P) : bool :=
  match e with StartReconnectWait _ => true | _ => false end.

(** ** Backoff *)

(** [min(2 ** attempts, 60)], the expression of [_attempt_reconnect] and
    [_reconnect_wait]. *)
Definition wait_time (attempts : Z) : Z := Z.min (2 ^ attempts) 60.

(** ** The reconnecting client

    [BinanceWebSocketClient], [BinanceDepthClient] and [BinanceKlineClient]
    declare the same connection fields and the same [_on_open],
    [_on_error], [_on_close], [_attempt_reconnect], [_reconnect_wait] and
    [_run_ws]; they differ in the data they hold ([D]), in [_on_message],
    and the kline client seeds its series in [connect] and empties it in
    [disconnect]. *)
Module StreamClient.

Record client (D : Type) : Type := Client {
  ws : option nat;
  is_connected : bool;
  is_disconnecting : bool;
  on_message_callback : option callback;
  on_error_callback : option callback;
  _reconnect_attempts : Z;
  _max_reconnect_attempts : Z;
  held : D
}.

Arguments Client {D}.
Arguments ws {D}.
Arguments is_connected {D}.
Arguments is_disconnecting {D}.
Arguments on_message_callback {D}.
Arguments on_error_callback {D}.
Arguments _reconnect_attempts {D}.
Arguments _max_reconnect_attempts {D}.
Arguments held {D}.

(** How the body of [_run_ws] ends: the socket thread is started, or the
    [WebSocketApp] constructor raises (before [self.ws] is assigned), or
    starting the thread raises (after it). *)
Inductive run_outcome := Started | CtorRaised | ThreadRaised.

Section Handlers.
Context {D P : Type}.
Implicit Types (self : client D) (cb : callback).

Definition __init__ (d : D) : client D :=
  Client None false false None None 0 5 d.

Definition with_ws (w : option nat) self : client D :=
  Client w (is_connected self) (is_disconnecting self)
    (on_message_callback self) (on_error_callback self)
    (_reconnect_attempts self) (_max_reconnect_attempts self) (held self).

Definition with_is_connected (b : bool) self : client D :=
  Client (ws self) b (is_disconnecting self)
    (on_message_callback self) (on_error_callback self)
    (_reconnect_attempts self) (_max_reconnect_attempts self) (held self).

Definition with_is_disconnecting (b : bool) self : client D :=
  Client (ws self) (is_connected self) b
    (on_message_callback self) (on_error_callback self)
    (_reconnect_attempts self) (_max_reconnect_attempts self) (held self).

Definition with_reconnect_attempts (n : Z) self : client D :=
  Client (ws self) (is_connected self) (is_disconnecting self)
    (on_message_callback self) (on_error_callback self)
    n (_max_reconnect_attempts self) (held self).

Definition with_held (d : D) self : client D :=
  Client (ws self) (is_connected self) (is_disconnecting self)
    (on_message_callback self) (on_error_callback self)
    (_reconnect_attempts self) (_max_reconnect_attempts self) d.

Definition set_on_message_callback cb self : client D :=
  Client (ws self) (is_connected self) (is_disconnecting self)
    (Some cb) (on_error_callback self)
    (_reconnect_attempts self) (_max_reconnect_attempts self) (held self).

Definition set_on_error_callback cb self : client D :=
  Client (ws self) (is_connected self) (is_disconnecting self)
    (on_message_callback self) (Some cb)
    (_reconnect_attempts self) (_max_reconnect_attempts self) (held self).

Definition clear_callbacks self : client D :=
  Client (ws self) (is_connected self) (is_disconnecting self)
    None None
    (_reconnect_attempts self) (_max_reconnect_attempts self) (held self).

(** The seconds a [_reconnect_wait] thread sleeps: it reads the counter
    as its first statement. *)
Definition _reconnect_wait self : Z := wait_time (_reconnect_attempts self).

(** [_attempt_reconnect]. The thread it starts computes its wait at
    once, so starting it and computing the wait are one step here; what
    the thread does after the sleep is [connect], run by the step
    function below when the sleep ends. *)
Definition _attempt_reconnect self : client D * list (effect P) :=
  if is_disconnecting self then (self, [])
  else if _reconnect_attempts self <? _max_reconnect_attempts self then
    let self := with_reconnect_attempts (_reconnect_attempts self + 1) self in
    (self, [LogReconnecting (wait_time (_reconnect_attempts self))
                            (_reconnect_attempts self);
            StartReconnectWait (_reconnect_wait self)])
  else (self, [Log ERROR "Max reconnection attempts reached"]).

Definition _run_ws (id : nat) (o : run_outcome) self : client D * list (effect P) :=
  match o with
  | Started => (with_ws (Some id) self, [StartWs id])
  | CtorRaised =>
      let '(self, es) := _attempt_reconnect self in
      (self, Log ERROR "WebSocket error" :: es)
  | ThreadRaised =>
      let '(self, es) := _attempt_reconnect (with_ws (Some id) self) in
      (self, Log ERROR "WebSocket error" :: es)
  end.

(** [connect] of the ticker and depth clients. *)
Definition connect (id : nat) (o : run_outcome) self : client D * list (effect P) :=
  let '(self, es) := _run_ws id o self in
  (self, es ++ [Log INFO "WebSocket connection started"]).

Definition _on_open self : client D * list (effect P) :=
  (with_reconnect_attempts 0 (with_is_connected true self),
   [Log INFO "WebSocket connected"]).

Definition _on_error (error : string) self : client D * list (effect P) :=
  (self,
   Log ERROR "WebSocket error" ::
   match on_error_callback self with
   | Some cb => [CallOnError cb error]
   | None => []
   end).

Definition _on_close self : client D * list (effect P) :=
  let self := with_is_connected false self in
  if negb (is_disconnecting self) then
    let '(self, es) := _attempt_reconnect self in
    (self, Log WARNING "WebSocket closed" :: es)
  else (self, [Log WARNING "WebSocket closed"]).

(** [disconnect]; [clear] empties the held data ([last_data], and the
    series of the kline client); [close_ok] tells whether [ws.close()]
    returned rather than raised. *)
Definition disconnect (clear : D -> D) (close_ok : bool) self
    : client D * list (effect P) :=
  let self := with_is_connected false (with_is_disconnecting true self) in
  let closing :=
    match ws self with
    | Some id =>
        [CloseWs id;
         if close_ok then Log INFO "WebSocket closed"
         else Log WARNING "Error closing WebSocket"]
    | None => []
    end in
  (with_held (clear (held self)) (clear_callbacks self),
   Log INFO "Initiating graceful disconnect" :: closing
     ++ [Log INFO "Resources cleaned up"]).

End Handlers.

(** *** One client and its threads

    [sleepers] are the [_reconnect_wait] threads that are asleep, each
    with the seconds it sleeps; [next_id] names the next [WebSocketApp].
    The methods that differ between the three classes are the fields of
    [methods]; [I] is what [connect] reads from outside (the reply of the
    REST call for the kline client, nothing for the others). *)
Record methods (D P I : Type) : Type := Methods {
  m_connect : I -> nat -> run_outcome -> client D -> client D * list (effect P);
  m_on_message : string -> client D -> client D * list (effect P);
  m_disconnect : bool -> client D -> client D * list (effect P)
}.

Arguments Methods {D P I}.
Arguments m_connect {D P I}.
Arguments m_on_message {D P I}.
Arguments m_disconnect {D P I}.

Record world (D : Type) : Type := World {
  self : client D;
  sleepers : list Z;
  next_id : nat
}.

Arguments World {D}.
Arguments self {D}.
Arguments sleepers {D}.
Arguments next_id {D}.

Inductive event (I : Type) : Type :=
| SetOnMessage (cb : callback)
| SetOnError (cb : callback)
| Connect (i : I) (o : run_outcome)
| Open
| Message (m : string)
| Error (e : string)
| Close
| Wake (k : nat) (i : I) (o : run_outcome)
| Disconnect (close_ok : bool).

Arguments SetOnMessage {I}.
Arguments SetOnError {I}.
Arguments Connect {I}.
Arguments Open {I}.
Arguments Message {I}.
Arguments Error {I}.
Arguments Close {I}.
Arguments Wake {I}.
Arguments Disconnect {I}.

Section Run.
Context {D P I : Type} (M : methods D P I).

Definition started_waits (es : list (effect P)) : list Z :=
  omap (fun e => match e with StartReconnectWait w => Some w | _ => None end) es.

(** The handler an event runs. [Wake k] is the [k]-th sleeping thread
    reaching [self.connect()]; with no such thread nothing happens. *)
Definition handle (ev : event I) (w : world D) : client D * list (effect P) :=
  match ev with
  | SetOnMessage cb => (set_on_message_callback cb (self w), [])
  | SetOnError cb => (set_on_error_callback cb (self w), [])
  | Connect i o => m_connect M i (next_id w) o (self w)
  | Open => _on_open (self w)
  | Message m => m_on_message M m (self w)
  | Error e => _on_error e (self w)
  | Close => _on_close (self w)
  | Wake k i o =>
      match sleepers w !! k with
      | Some _ => m_connect M i (next_id w) o (self w)
      | None => (self w, [])
      end
  | Disconnect close_ok => m_disconnect M close_ok (self w)
  end.

Definition step (ev : event I) (w : world D) : world D * list (effect P) :=
  let '(c, es) := handle ev w in
  let woken := match ev with Wake k _ _ => delete k (sleepers w) | _ => sleepers w end in
  let used := match ev with
              | Connect _ _ => S (next_id w)
              | Wake k _ _ =>
                  match sleepers w !! k with
                  | Some _ => S (next_id w)
                  | None => next_id w
                  end
              | _ => next_id w
              end in
  (World c (woken ++ started_waits es) used, es).

Fixpoint run (evs : list (event I)) (w : world D) : world D * list (effect P) :=
  match evs with
  | [] => (w, [])
  | ev :: rest =>
      let '(w1, es1) := step ev w in
      let '(w2, es2) := run rest w1 in
      (w2, es1 ++ es2)
  end.

Definition boot (d : D) : world D := World (__init__ d) [] 0%nat.

End Run.

End StreamClient.

(** ** [BinanceWebSocketClient]: the ticker *)
Module BinanceWebSocketClient.
Import StreamClient.

Section Ticker.
Context {RT : PyRuntime}.

(** The dict stored in [last_data]. *)
Record ticker : Type := Ticker {
  price : pyfloat;
  high : pyfloat;
  low : pyfloat;
  volume : pyfloat;
  quote_volume : pyfloat;
  price_change : pyfloat;
  price_change_percent : pyfloat;
  timestamp : Z
}.

(** The dict display of [_on_message], evaluated key by key. *)
Definition snapshot (data : value) : option ticker :=
  c ← py_get data "c" (JInt 0) ≫= py_float;
  h ← py_get data "h" (JInt 0) ≫= py_float;
  l ← py_get data "l" (JInt 0) ≫= py_float;
  v ← py_get data "v" (JInt 0) ≫= py_float;
  q ← py_get data "q" (JInt 0) ≫= py_float;
  p ← py_get data "p" (JInt 0) ≫= py_float;
  pp ← py_get data "P" (JInt 0) ≫= py_float;
  e ← py_get data "E" (JInt 0) ≫= py_int;
  Some (Ticker c h l v q p pp e).

Definition state : Type := client (option ticker).

Definition _on_message (message : string) (self : state)
    : state * list (effect ticker) :=
  match json_loads message with
  | None => (self, [Log ERROR "Failed to parse message"])
  | Some data =>
      match snapshot data with
      | None => (self, [Log ERROR "Error processing message"])
      | Some t =>
          (with_held (Some t) self,
           match on_message_callback self with
           | Some cb => [CallOnMessage cb t]
           | None => []
           end ++ [Log DEBUG "Received ticker"])
      end
  end.

Definition get_latest_data (self : state) : option ticker := held self.

Definition methods : StreamClient.methods (option ticker) ticker unit :=
  Methods (fun _ => connect) _on_message (disconnect (fun _ => None)).

Definition init : world (option ticker) := boot None.

End Ticker.
End BinanceWebSocketClient.

(** ** [BinanceDepthClient]: the order book *)
Module BinanceDepthClient.
Import StreamClient.

Section Depth.
Context {RT : PyRuntime}.

Record book : Type := Book {
  bids : list (pyfloat * pyfloat);
  asks : list (pyfloat * pyfloat);
  timestamp : Z
}.

(** The fields the class adds: the configured [depth] and [last_data]. *)
Record fields : Type := Fields {
  depth : Z;
  last_data : option book
}.

(** [[float(bid[0]), float(bid[1])]] *)
Definition level_of (entry : value) : option (pyfloat * pyfloat) :=
  p ← py_index entry 0 ≫= py_float;
  q ← py_index entry 1 ≫= py_float;
  Some (p, q).

(** [[... for bid in raw[:depth]]] *)
Definition levels_of (n : Z) (raw : value) : option (list (pyfloat * pyfloat)) :=
  cut ← py_slice_to raw n;
  entries ← py_iter cut;
  mapM level_of entries.

(** The comprehension over [data.get(key, [])]. *)
Definition side_of (data : value) (key : string) (n : Z)
    : option (list (pyfloat * pyfloat)) :=
  py_get data key (JArr []) ≫= levels_of n.

Definition snapshot (n : Z) (data : value) : option book :=
  b ← side_of data "bids" n;
  a ← side_of data "asks" n;
  e ← py_get data "E" (JInt 0) ≫= py_int;
  Some (Book b a e).

Definition state : Type := client fields.

Definition _on_message (message : string) (self : state)
    : state * list (effect book) :=
  match json_loads message with
  | None => (self, [Log ERROR "Failed to parse depth message"])
  | Some data =>
      match snapshot (depth (held self)) data with
      | None => (self, [Log ERROR "Error processing depth message"])
      | Some s =>
          (with_held (Fields (depth (held self)) (Some s)) self,
           match on_message_callback self with
           | Some cb => [CallOnMessage cb s]
           | None => []
           end)
      end
  end.

Definition get_latest_data (self : state) : option book := last_data (held self).

Definition methods : StreamClient.methods fields book unit :=
  Methods (fun _ => connect) _on_message
          (disconnect (fun f => Fields (depth f) None)).

Definition init (n : Z) : world fields := boot (Fields n None).

End Depth.
End BinanceDepthClient.

(** ** [BinanceKlineClient]: the candle series *)
Module BinanceKlineClient.
Import StreamClient.

(** What [requests.get(...)], [raise_for_status()] and [response.json()]
    give: an exception, or the decoded body. *)
Inductive http_reply (V : Type) : Type :=
| HttpFailed
| HttpBody (data : V).

Arguments HttpFailed {V}.
Arguments HttpBody {V} data.

Section Kline.
Context {RT : PyRuntime}.

(** One candle. [is_closed] keeps the value of the message as it is. *)
Record kline : Type := Kline {
  open : pyfloat;
  high : pyfloat;
  low : pyfloat;
  close : pyfloat;
  volume : pyfloat;
  time : Z;
  is_closed : value
}.

Record fields : Type := Fields {
  klines : list kline;
  last_data : option kline
}.

(** The payload of the message callback: the series and the latest bar. *)
Record update : Type := Update {
  u_klines : list kline;
  u_latest : kline
}.

Definition state : Type := client fields.

(** The dict built from one row [k] of the REST reply. *)
Definition kline_of_row (k : value) : option kline :=
  o ← py_index k 1 ≫= py_float;
  h ← py_index k 2 ≫= py_float;
  l ← py_index k 3 ≫= py_float;
  c ← py_index k 4 ≫= py_float;
  v ← py_index k 7 ≫= py_float;
  t ← py_index k 0 ≫= py_int;
  Some (Kline o h l c v t (JBool true)).

(** The loop [for k in data: ... self.klines.append(kline)]: a row that
    raises ends the loop, and the rows appended before it stay. The
    boolean tells whether the loop ran to its end. *)
Fixpoint load_rows (rows : list value) (series : list kline) : list kline * bool :=
  match rows with
  | [] => (series, true)
  | k :: rest =>
      match kline_of_row k with
      | Some bar => load_rows rest (series ++ [bar])
      | None => (series, false)
      end
  end.

Definition with_klines (ks : list kline) (self : state) : state :=
  with_held (Fields ks (last_data (held self))) self.

Definition _fetch_historical_klines (limit : Z) (reply : http_reply value)
    (self : state) : state * list (effect update) :=
  match reply with
  | HttpFailed =>
      (self, [HttpGetKlines limit;
              Log WARNING "Failed to fetch historical klines"])
  | HttpBody data =>
      match py_iter data with
      | None =>
          (self, [HttpGetKlines limit;
                  Log ERROR "Error processing historical klines"])
      | Some rows =>
          let '(ks, finished) := load_rows rows (klines (held self)) in
          (with_klines ks self,
           [HttpGetKlines limit;
            if finished then Log INFO "Loaded historical klines"
            else Log ERROR "Error processing historical klines"])
      end
  end.

Definition connect (reply : http_reply value) (id : nat) (o : run_outcome)
    (self : state) : state * list (effect update) :=
  let '(self, es1) := _fetch_historical_klines 20 reply self in
  let '(self, es2) := StreamClient.connect id o self in
  (self, es1 ++ es2).

(** The dict display of [_on_message]. *)
Definition bar_of (data : value) : option kline :=
  k ← py_get data "k" (JObj []);
  o ← py_get k "o" (JInt 0) ≫= py_float;
  h ← py_get k "h" (JInt 0) ≫= py_float;
  l ← py_get k "l" (JInt 0) ≫= py_float;
  c ← py_get k "c" (JInt 0) ≫= py_float;
  v ← py_get k "v" (JInt 0) ≫= py_float;
  t ← py_get k "t" (JInt 0) ≫= py_int;
  x ← py_get k "x" (JBool false);
  Some (Kline o h l c v t x).

(** [self.klines[-1] = kline] on a list that is not empty. *)
Definition set_last (series : list kline) (bar : kline) : list kline :=
  <[pred (length series) := bar]> series.

(** [self.klines and self.klines[-1]["time"] == kline["time"]] *)
Definition same_candle (series : list kline) (bar : kline) : bool :=
  match last series with
  | Some final => time final =? time bar
  | None => false
  end.

(** The replace-or-append statement of [_on_message]. *)
Definition push (series : list kline) (bar : kline) : list kline :=
  if same_candle series bar then set_last series bar
  else
    let series := series ++ [bar] in
    if 100 <? Z.of_nat (length series) then drop 1 series else series.

Definition _on_message (message : string) (self : state)
    : state * list (effect update) :=
  match json_loads message with
  | None => (self, [Log ERROR "Failed to parse kline message"])
  | Some data =>
      match bar_of data with
      | None => (self, [Log ERROR "Error processing kline message"])
      | Some bar =>
          let series := push (klines (held self)) bar in
          (with_held (Fields series (Some bar)) self,
           match on_message_callback self with
           | Some cb => [CallOnMessage cb (Update series bar)]
           | None => []
           end ++ [Log INFO "Received kline"])
      end
  end.

Definition get_latest_data (self : state) : option kline := last_data (held self).

Definition methods : StreamClient.methods fields update (http_reply value) :=
  Methods connect _on_message (disconnect (fun _ => Fields [] None)).

Definition init : world fields := boot (Fields [] None).

End Kline.
End BinanceKlineClient.

(** ** [BinanceTradesClient]: the trade log *)
Module BinanceTradesClient.

Inductive side := BUY | SELL.

(** How the body of [connect] ends: the constructor raises, starting the
    thread raises, or the polling loop runs and has or has not seen the
    socket connected. *)
Inductive connect_outcome := CtorRaised | ThreadRaised | Polled (seen : bool).

Section Trades.
Context {RT : PyRuntime}.

(** One trade. [time] keeps the value of the message as it is. *)
Record trade : Type := Trade {
  price : pyfloat;
  qty : pyfloat;
  taker : side;
  time : value
}.

Record client : Type := Client {
  ws : option nat;
  is_connected : bool;
  is_running : bool;
  on_message_callback : option callback;
  on_error_callback : option callback;
  trades : list trade;
  max_trades : Z
}.

Definition __init__ : client := Client None false true None None [] 50.

Definition set_on_message_callback (cb : callback) (self : client) : client :=
  Client (ws self) (is_connected self) (is_running self) (Some cb)
         (on_error_callback self) (trades self) (max_trades self).

Definition set_on_error_callback (cb : callback) (self : client) : client :=
  Client (ws self) (is_connected self) (is_running self)
         (on_message_callback self) (Some cb) (trades self) (max_trades self).

Definition with_ws (w : option nat) (self : client) : client :=
  Client w (is_connected self) (is_running self) (on_message_callback self)
         (on_error_callback self) (trades self) (max_trades self).

Definition with_is_connected (b : bool) (self : client) : client :=
  Client (ws self) b (is_running self) (on_message_callback self)
         (on_error_callback self) (trades self) (max_trades self).

Definition with_is_running (b : bool) (self : client) : client :=
  Client (ws self) (is_connected self) b (on_message_callback self)
         (on_error_callback self) (trades self) (max_trades self).

Definition with_trades (ts : list trade) (self : client) : client :=
  Client (ws self) (is_connected self) (is_running self)
         (on_message_callback self) (on_error_callback self) ts (max_trades self).

(** The dict display of [_on_message]. *)
Definition trade_of (data : value) : option trade :=
  p ← py_get data "p" (JInt 0) ≫= py_float;
  q ← py_get data "q" (JInt 0) ≫= py_float;
  m ← py_get data "m" (JBool false);
  t ← py_get data "T" (JInt 0);
  Some (Trade p q (if negb (py_truthy m) then BUY else SELL) t).

(** [self.trades.insert(0, trade)] and the truncation after it. *)
Definition record_trade (cap : Z) (log : list trade) (t : trade) : list trade :=
  let log := t :: log in
  if cap <? Z.of_nat (length log) then slice_to log cap else log.

Definition _on_message (message : string) (self : client)
    : client * list (effect (list trade)) :=
  if negb (is_running self) then (self, [])
  else
    match json_loads message ≫= trade_of with
    | None => (self, [Log DEBUG "Error parsing trade message"])
    | Some t =>
        let log := record_trade (max_trades self) (trades self) t in
        (with_trades log self,
         match on_message_callback self with
         | Some cb => [CallOnMessage cb log]
         | None => []
         end)
    end.

Definition _on_error (error : string) (self : client)
    : client * list (effect (list trade)) :=
  (with_is_connected false self,
   Log ERROR "Trades WebSocket error" ::
   match on_error_callback self with
   | Some cb => [CallOnError cb error]
   | None => []
   end).

Definition _on_close (self : client) : client * list (effect (list trade)) :=
  (with_is_connected false self, [Log WARNING "Trades WebSocket closed"]).

Definition connect (id : nat) (o : connect_outcome) (self : client)
    : client * list (effect (list trade)) :=
  match o with
  | CtorRaised => (self, [Log ERROR "Failed to connect trades WebSocket"])
  | ThreadRaised =>
      (with_ws (Some id) self, [Log ERROR "Failed to connect trades WebSocket"])
  | Polled true =>
      (with_is_connected true (with_ws (Some id) self),
       [StartWs id; Log INFO "Trades WebSocket connected"])
  | Polled false => (with_ws (Some id) self, [StartWs id])
  end.

(** [disconnect]: when [ws.close()] raises, the [except] clause is
    reached before the callbacks and the log are cleared. *)
Definition disconnect (close_ok : bool) (self : client)
    : client * list (effect (list trade)) :=
  let self := with_is_running false self in
  let cleared :=
    Client (ws self) (is_connected self) (is_running self) None None []
           (max_trades self) in
  match ws self with
  | Some id =>
      if close_ok then
        (cleared,
         [Log INFO "Initiating graceful disconnect"; CloseWs id;
          Log INFO "Trades WebSocket closed";
          Log INFO "Trades resources cleaned up"])
      else
        (self,
         [Log INFO "Initiating graceful disconnect"; CloseWs id;
          Log WARNING "Error closing trades WebSocket"])
  | None => (cleared, [Log INFO "Trades resources cleaned up"])
  end.

Inductive event : Type :=
| SetOnMessage (cb : callback)
| SetOnError (cb : callback)
| Connect (id : nat) (o : connect_outcome)
| Message (m : string)
| Error (e : string)
| Close
| Disconnect (close_ok : bool).

Definition step (ev : event) (self : client)
    : client * list (effect (list trade)) :=
  match ev with
  | SetOnMessage cb => (set_on_message_callback cb self, [])
  | SetOnError cb => (set_on_error_callback cb self, [])
  | Connect id o => connect id o self
  | Message m => _on_message m self
  | Error e => _on_error e self
  | Close => _on_close self
  | Disconnect close_ok => disconnect close_ok self
  end.

Fixpoint run (evs : list event) (self : client)
    : client * list (effect (list trade)) :=
  match evs with
  | [] => (self, [])
  | ev :: rest =>
      let '(s1, es1) := step ev self in
      let '(s2, es2) := run rest s1 in
      (s2, es1 ++ es2)
  end.

End Trades.
End BinanceTradesClient.

(** ** A runtime to evaluate the model on concrete messages

    Floats are exact decimals [mantissa / 10 ^ scale] without trailing
    zeros; [float] and [int] read plain decimal literals; [loads] decodes
    the JSON texts made of objects, arrays, strings without escapes,
    numbers without exponent, [true], [false] and [null]. On such texts it
    gives the value [json.loads] gives, up to the rounding of floats. *)
Module Reference.
#[local] Open Scope char_scope.
#[local] Open Scope Z_scope.

Record dec : Type := Dec { mantissa : Z; scale : nat }.

Fixpoint trim (m : Z) (sc : nat) : dec :=
  match sc with
  | O => Dec m O
  | S sc' => if m mod 10 =? 0 then trim (m / 10) sc' else Dec m sc
  end.

Definition is_digit (c : ascii) : bool :=
  (48 <=? nat_of_ascii c)%nat && (nat_of_ascii c <=? 57)%nat.

Definition digit_value (c : ascii) : Z := Z.of_nat (nat_of_ascii c) - 48.

(** The longest prefix of digits, as a number and a length, and the rest. *)
Fixpoint digits (s : list ascii) (acc : Z) (n : nat) : Z * nat * list ascii :=
  match s with
  | c :: rest =>
      if is_digit c then digits rest (10 * acc + digit_value c) (S n)
      else (acc, n, s)
  | [] => (acc, n, [])
  end.

(** An unsigned literal [ddd] or [ddd.ddd]; [lax] also admits [ddd.] and
    [.ddd], which [float] reads and JSON does not. *)
Definition unsigned (lax : bool) (s : list ascii)
    : option (Z * option dec * list ascii) :=
  let '(ip, ni, rest) := digits s 0 0%nat in
  match rest with
  | "." :: rest' =>
      let '(fp, nf, rest'') := digits rest' 0 0%nat in
      if lax then
        if (ni + nf =? 0)%nat then None
        else Some (ip, Some (trim (ip * 10 ^ Z.of_nat nf + fp) nf), rest'')
      else
        if ((ni =? 0) || (nf =? 0))%nat then None
        else Some (ip, Some (trim (ip * 10 ^ Z.of_nat nf + fp) nf), rest'')
  | _ => if (ni =? 0)%nat then None else Some (ip, None, rest)
  end.

Definition negate (d : dec) : dec := Dec (- mantissa d) (scale d).

Definition read_float (s : string) : option dec :=
  let cs := String.list_ascii_of_string s in
  let '(neg, body) :=
    match cs with
    | "-" :: r => (true, r)
    | "+" :: r => (false, r)
    | _ => (false, cs)
    end in
  match unsigned true body with
  | Some (ip, frac, []) =>
      let d := default (Dec ip 0) frac in
      Some (if neg then negate d else d)
  | _ => None
  end.

Definition read_int (s : string) : option Z :=
  let cs := String.list_ascii_of_string s in
  let '(neg, body) :=
    match cs with
    | "-" :: r => (true, r)
    | "+" :: r => (false, r)
    | _ => (false, cs)
    end in
  match digits body 0 0%nat with
  | (z, S _, []) => Some (if neg then - z else z)
  | _ => None
  end.

Definition truncate (d : dec) : option Z :=
  Some (Z.quot (mantissa d) (10 ^ Z.of_nat (scale d))).

Definition is_space (c : ascii) : bool :=
  match nat_of_ascii c with
  | 32%nat | 9%nat | 10%nat | 13%nat => true
  | _ => false
  end.

Fixpoint skip_ws (s : list ascii) : list ascii :=
  match s with
  | c :: rest => if is_space c then skip_ws rest else s
  | [] => []
  end.

Definition quote : ascii := ascii_of_nat 34.

(** The characters up to the closing quote. *)
Fixpoint text (s : list ascii) (acc : list ascii) : option (string * list ascii) :=
  match s with
  | [] => None
  | c :: rest =>
      if Ascii.eqb c quote then Some (String.string_of_list_ascii (rev acc), rest)
      else if Ascii.eqb c "\" then None
      else text rest (c :: acc)
  end.

(** [d[key] = v] on the members of a dict. *)
Fixpoint dict_set (key : string) (v : json dec) (members : list (string * json dec))
    : list (string * json dec) :=
  match members with
  | [] => [(key, v)]
  | (k, old) :: rest =>
      if String.eqb k key then (k, v) :: rest else (k, old) :: dict_set key v rest
  end.

Definition number (s : list ascii) : option (json dec * list ascii) :=
  let '(neg, body) := match s with "-" :: r => (true, r) | _ => (false, s) end in
  match unsigned false body with
  | Some (ip, None, rest) => Some (JInt (if neg then - ip else ip), rest)
  | Some (_, Some d, rest) => Some (JFloat (if neg then negate d else d), rest)
  | None => None
  end.

Fixpoint element (fuel : nat) (s : list ascii) : option (json dec * list ascii) :=
  match fuel with
  | O => None
  | S fuel =>
      match skip_ws s with
      | "{" :: r =>
          match skip_ws r with
          | "}" :: r' => Some (JObj [], r')
          | r' => members fuel r' []
          end
      | "[" :: r =>
          match skip_ws r with
          | "]" :: r' => Some (JArr [], r')
          | r' => items fuel r' []
          end
      | "t" :: "r" :: "u" :: "e" :: r => Some (JBool true, r)
      | "f" :: "a" :: "l" :: "s" :: "e" :: r => Some (JBool false, r)
      | "n" :: "u" :: "l" :: "l" :: r => Some (JNull, r)
      | c :: r =>
          if Ascii.eqb c quote then '(t, r') ← text r []; Some (JStr t, r')
          else number (c :: r)
      | [] => None
      end
  end
with members (fuel : nat) (s : list ascii) (acc : list (string * json dec))
    : option (json dec * list ascii) :=
  match fuel with
  | O => None
  | S fuel =>
      match skip_ws s with
      | c :: r =>
          if Ascii.eqb c quote then
            '(k, r1) ← text r [];
            match skip_ws r1 with
            | ":" :: r2 =>
                '(v, r3) ← element fuel r2;
                match skip_ws r3 with
                | "," :: r4 => members fuel r4 (dict_set k v acc)
                | "}" :: r4 => Some (JObj (dict_set k v acc), r4)
                | _ => None
                end
            | _ => None
            end
          else None
      | [] => None
      end
  end
with items (fuel : nat) (s : list ascii) (acc : list (json dec))
    : option (json dec * list ascii) :=
  match fuel with
  | O => None
  | S fuel =>
      '(v, r1) ← element fuel s;
      match skip_ws r1 with
      | "," :: r2 => items fuel r2 (acc ++ [v])
      | "]" :: r2 => Some (JArr (acc ++ [v]), r2)
      | _ => None
      end
  end.

Definition loads (s : string) : option (json dec) :=
  let cs := String.list_ascii_of_string s in
  match element (S (length cs)) cs with
  | Some (v, rest) => match skip_ws rest with [] => Some v | _ => None end
  | None => None
  end.

(** A JSON text written with ['] where it has the double quote. *)
Definition jtext (s : string) : string :=
  String.string_of_list_ascii
    ((fun c => if Ascii.eqb c "'" then quote else c) <$> String.list_ascii_of_string s).

#[export] Instance runtime : PyRuntime := {|
  pyfloat := dec;
  float_of_int := fun z => Some (Dec z 0);
  float_of_str := read_float;
  int_of_float := truncate;
  int_of_str := read_int;
  float_truthy := fun d => negb (mantissa d =? 0);
  json_loads := loads
|}.

End Reference.

(** ** [crypto_app.utils.helpers]

    [format_symbol] on ASCII text. A string is the list of its
    characters; [upper] and [isalpha] are [str.upper] and [str.isalpha]
    on ASCII characters. *)
Module Helpers.

Definition is_lower (c : ascii) : bool :=
  ((97 <=? nat_of_ascii c) && (nat_of_ascii c <=? 122))%nat.

Definition is_upper (c : ascii) : bool :=
  ((65 <=? nat_of_ascii c) && (nat_of_ascii c <=? 90))%nat.

Definition upper_char (c : ascii) : ascii :=
  if is_lower c then ascii_of_nat (nat_of_ascii c - 32) else c.

(** [s.upper()] *)
Definition upper (s : list ascii) : list ascii := upper_char <$> s.

(** [c.isalpha()] *)
Definition isalpha (c : ascii) : bool := is_lower c || is_upper c.

(** [s.endswith(suffix)] *)
Definition endswith (s suffix : list ascii) : bool :=
  bool_decide (length suffix <= length s /\
               drop (length s - length suffix) s = suffix)%nat.

(** [l[n:]], for any integer [n]: a negative bound counts from the end. *)
Definition slice_from {A} (l : list A) (n : Z) : list A :=
  if 0 <=? n then drop (Z.to_nat n) l
  else drop (Z.to_nat (Z.of_nat (length l) + n)) l.

(** The index at which the loop [for i, c in enumerate(symbol)] breaks. *)
Fixpoint first_non_alpha (s : list ascii) : option nat :=
  match s with
  | [] => None
  | c :: rest => if negb (isalpha c) then Some 0%nat else S <$> first_non_alpha rest
  end.

Definition USDT : list ascii := String.list_ascii_of_string "USDT".
Definition USD : list ascii := String.list_ascii_of_string "USD".
Definition BUSD : list ascii := String.list_ascii_of_string "BUSD".
Definition slash : ascii := ascii_of_nat 47.

Definition format_symbol (symbol : list ascii) : list ascii :=
  let symbol := upper symbol in
  let '(base, quote) :=
    if endswith symbol USDT then (slice_to symbol (-4), slice_from symbol (-4))
    else if endswith symbol USD then (slice_to symbol (-3), slice_from symbol (-3))
    else if endswith symbol BUSD then (slice_to symbol (-4), slice_from symbol (-4))
    else
      match first_non_alpha symbol with
      | Some i => (take i symbol, drop i symbol)
      | None => (symbol, [])
      end in
  match quote with
  | [] => base
  | _ => base ++ slash :: quote
  end.

End Helpers.

(** ** Vocabulary of the properties *)

Module Props.
Import StreamClient.

(** The connection fields of a client, without the data it holds. *)
Definition link {D} (c : client D) : client unit :=
  Client (ws c) (is_connected c) (is_disconnecting c)
         (on_message_callback c) (on_error_callback c)
         (_reconnect_attempts c) (_max_reconnect_attempts c) tt.

(** Effects that neither open a connection, nor start a reconnect
    thread, nor reach the error callback. *)
Definition quiet {P} (e : effect P) : Prop :=
  match e with
  | Log _ _ | HttpGetKlines _ | CallOnMessage _ _ => True
  | _ => False
  end.

(** What the three classes have in common: [_on_message] leaves the
    connection fields alone, [connect] ends in the shared [connect], and
    [disconnect] is the shared one up to the data it clears. *)
Record lawful {D P I} (M : methods D P I) : Prop := Lawful {
  law_message : forall m c,
    link (m_on_message M m c).1 = link c /\ Forall quiet (m_on_message M m c).2;
  law_connect : forall i id o c, exists c0 es0,
    link c0 = link c /\ Forall quiet es0 /\
    m_connect M i id o c = (let '(c1, es) := connect id o c0 in (c1, es0 ++ es));
  law_disconnect : forall ok c, exists clear,
    m_disconnect M ok c = disconnect clear ok c
}.

(** A reconnect is the [n]-th attempt for some [n] from 1 to 5 and waits
    [min(2 ** n, 60)] seconds, which is [2 ** n]. *)
Definition backoff_ok {P} (e : effect P) : Prop :=
  match e with
  | StartReconnectWait w =>
      exists n, 1 <= n <= 5 /\ w = Z.min (2 ^ n) 60 /\ w = 2 ^ n
  | LogReconnecting w n => 1 <= n <= 5 /\ w = Z.min (2 ^ n) 60 /\ w = 2 ^ n
  | _ => True
  end.

(** The counter stays between 0 and the maximum, which stays 5. *)
Definition counter_ok {D} (c : client D) : Prop :=
  0 <= _reconnect_attempts c <= 5 /\ _max_reconnect_attempts c = 5.

Definition starts_connection {P} (es : list (effect P)) : Prop :=
  Exists (fun e => is_start_ws e = true) es.

Definition schedules_reconnect {P} (es : list (effect P)) : Prop :=
  Exists (fun e => is_reconnect_wait e = true) es.

Definition error_calls {P} (es : list (effect P)) : list (effect P) :=
  filter (fun e => is_error_call e = true) es.

Definition message_calls {P} (es : list (effect P)) : list (effect P) :=
  filter (fun e => is_message_call e = true) es.

(** The events that are the opening of the connection. *)
Definition is_open_event {I} (ev : event I) : bool :=
  match ev with Open => true | _ => false end.

(** The events that are an error reported by the socket. *)
Definition is_error_event {I} (ev : event I) : bool :=
  match ev with Error _ => true | _ => false end.

(** The events of the trades client that are a call of [connect]. *)
Definition is_trades_connect (ev : BinanceTradesClient.event) : bool :=
  match ev with BinanceTradesClient.Connect _ _ => true | _ => false end.

(** The member [key] is present and [conv] raises on its value. *)
Definition rejected `{PyRuntime} {A} (conv : value -> option A)
    (members : list (string * value)) (key : string) : Prop :=
  exists v, assoc key members = Some v /\ conv v = None.

(** The outcome [r] of a handler run in state [s] drops the message: the
    fields are those of [s] and the message callback is not called. *)
Definition dropped {S P} (r : S * list (effect P)) (s : S) : Prop :=
  r.1 = s /\ message_calls r.2 = [].

(** Malformed messages, per stream: the text does not decode, or decodes
    to something that is not an object, or a member that the handler
    converts is present with a value the conversion raises on. *)
Definition malformed_ticker `{PyRuntime} (m : string) : Prop :=
  match json_loads m with
  | Some (JObj members) =>
      (exists key, key ∈ (["c"; "h"; "l"; "v"; "q"; "p"; "P"] : list string) /\
                   rejected py_float members key) \/
      rejected py_int members "E"
  | _ => True
  end.

Definition malformed_depth `{PyRuntime} (n : Z) (m : string) : Prop :=
  match json_loads m with
  | Some (JObj members) =>
      rejected (BinanceDepthClient.levels_of n) members "bids" \/
      rejected (BinanceDepthClient.levels_of n) members "asks" \/
      rejected py_int members "E"
  | _ => True
  end.

Definition malformed_kline `{PyRuntime} (m : string) : Prop :=
  match json_loads m with
  | Some (JObj members) =>
      match default (JObj []) (assoc "k" members) with
      | JObj inner =>
          (exists key, key ∈ (["o"; "h"; "l"; "c"; "v"] : list string) /\
                       rejected py_float inner key) \/
          rejected py_int inner "t"
      | _ => True
      end
  | _ => True
  end.

Definition malformed_trade `{PyRuntime} (m : string) : Prop :=
  match json_loads m with
  | Some (JObj members) =>
      exists key, key ∈ (["p"; "q"] : list string) /\ rejected py_float members key
  | _ => True
  end.

(** [side] is what the message gives for [key], cut to [n] levels: the
    entries under [key] (none when the member is missing), the first [n]
    of them converted pair by pair in their order, and at most [n] long. *)
Definition truncated_side `{PyRuntime} (n : Z) (data : value) (key : string)
    (side : list (pyfloat * pyfloat)) : Prop :=
  exists entries,
    py_get data key (JArr []) ≫= py_iter = Some entries /\
    mapM BinanceDepthClient.level_of (take (Z.to_nat n) entries) = Some side /\
    Z.of_nat (length side) <= n.

(** The open-times of a series, and a series in strictly ascending order
    of open-time. *)
Definition open_times `{PyRuntime} (series : list BinanceKlineClient.kline) : list Z :=
  BinanceKlineClient.time <$> series.

Definition ascending `{PyRuntime} (series : list BinanceKlineClient.kline) : Prop :=
  StronglySorted Z.lt (open_times series).

(** The bars a seed reply adds: the rows converted up to the first that
    raises. *)
Definition loaded `{PyRuntime} (rows : list value) : list BinanceKlineClient.kline :=
  (BinanceKlineClient.load_rows rows []).1.

(** [bar] does not open before the last bar of [series]. *)
Definition not_before_last `{PyRuntime} (series : list BinanceKlineClient.kline)
    (bar : BinanceKlineClient.kline) : Prop :=
  match last series with
  | Some final => BinanceKlineClient.time final <= BinanceKlineClient.time bar
  | None => True
  end.

(** [bars] continue [series]: they are in ascending order and the first
    opens after the last bar of [series]. *)
Definition continues `{PyRuntime} (series bars : list BinanceKlineClient.kline) : Prop :=
  ascending bars /\
  match last series, head bars with
  | Some final, Some first => BinanceKlineClient.time final < BinanceKlineClient.time first
  | _, _ => True
  end.

(** The events whose bars keep the order of the series held in [w]: a
    live message whose bar does not open before the last held bar, and a
    seed reply whose loaded bars continue the held series. *)
Definition in_order `{PyRuntime}
    (ev : event (BinanceKlineClient.http_reply value))
    (w : world BinanceKlineClient.fields) : Prop :=
  let series := BinanceKlineClient.klines (held (self w)) in
  match ev with
  | Message m =>
      forall data bar, json_loads m = Some data ->
        BinanceKlineClient.bar_of data = Some bar -> not_before_last series bar
  | Connect reply _ | Wake _ reply _ =>
      forall data rows, reply = BinanceKlineClient.HttpBody data ->
        py_iter data = Some rows -> continues series (loaded rows)
  | _ => True
  end.

Fixpoint all_in_order `{PyRuntime}
    (evs : list (event (BinanceKlineClient.http_reply value)))
    (w : world BinanceKlineClient.fields) : Prop :=
  match evs with
  | [] => True
  | ev :: rest =>
      in_order ev w /\ all_in_order rest (step BinanceKlineClient.methods ev w).1
  end.

End Props.

(** ** Scenarios

    Event sequences and states used to evaluate the model, on the
    reference runtime. *)
Module Scenarios.
Import StreamClient Reference.

Definition ticker := BinanceWebSocketClient.methods (RT:=runtime).
Definition ticker_boot := BinanceWebSocketClient.init (RT:=runtime).

(** The connection opens, the peer closes it (a [_reconnect_wait] thread
    starts its sleep), and the consumer calls [disconnect]. *)
Definition close_then_disconnect : list (event unit) :=
  [Connect tt Started; Open; Close; Disconnect true].

Definition after_disconnect := (run ticker close_then_disconnect ticker_boot).1.

(** An error callback is registered and five connections in a row are
    closed by the peer before they open. *)
Definition five_failures : list (event unit) :=
  SetOnError 1%nat :: Connect tt Started
    :: concat (replicate 5 [Close; Wake 0 tt Started]).

Definition exhausted := (run ticker five_failures ticker_boot).1.

(** [connect] is called again on an open connection. *)
Definition connected : list (event unit) := [Connect tt Started; Open].

Definition open_ticker := (run ticker connected ticker_boot).1.

Definition kline := BinanceKlineClient.methods (RT:=runtime).
Definition kline_boot := BinanceKlineClient.init (RT:=runtime).

(** One row of the REST reply, with open-time [t]. *)
Definition row (t : Z) : json dec :=
  JArr [JInt t; JStr "1"; JStr "2"; JStr "0.5"; JStr "1.5"; JStr "10";
        JInt (t + 59999); JStr "15"; JInt 7; JStr "4"; JStr "6"; JStr "0"].

Definition reply (open_times : list Z) : BinanceKlineClient.http_reply (json dec) :=
  BinanceKlineClient.HttpBody (JArr (row <$> open_times)).

(** A live kline message with open-time 1000, 2000 and 9000000. *)
Definition bar_1000 : string :=
  jtext "{'k':{'t':1000,'o':'1','h':'2','l':'0.5','c':'1.7','v':'11','x':false}}".
Definition bar_1000_data : json dec :=
  JObj [("k", JObj [("t", JInt 1000); ("o", JStr "1"); ("h", JStr "2");
                    ("l", JStr "0.5"); ("c", JStr "1.7"); ("v", JStr "11");
                    ("x", JBool false)])].
Definition bar_1000_kline : BinanceKlineClient.kline (RT:=runtime) :=
  BinanceKlineClient.Kline (Dec 1 0) (Dec 2 0) (Dec 5 1) (Dec 17 1) (Dec 11 0)
                           1000 (JBool false).
Definition bar_2000 : string :=
  jtext "{'k':{'t':2000,'o':'1.7','h':'2','l':'1.5','c':'1.8','v':'3','x':false}}".
Definition bar_9000000 : string :=
  jtext "{'k':{'t':9000000,'o':'1','h':'2','l':'0.5','c':'1.5','v':'10','x':true}}".

(** The kline client is seeded with one bar and its connection opens. *)
Definition seeded_once : list (event (BinanceKlineClient.http_reply (json dec))) :=
  [Connect (reply [1000]) Started; Open].

Definition open_kline := (run kline seeded_once kline_boot).1.

(** Twenty open-times, one minute apart. *)
Definition twenty : list Z := (fun i => 60000 * Z.of_nat i) <$> seq 1 20.

(** The kline client connects and the peer closes the connection five
    times in a row after it opened; each reconnect fetches the seed again. *)
Definition five_reconnects : list (event (BinanceKlineClient.http_reply (json dec))) :=
  Connect (reply twenty) Started
    :: concat (replicate 5 [Open; Close; Wake 0 (reply twenty) Started]).

Definition reseeded := (run kline five_reconnects kline_boot).1.

(** The same with four reconnects: the seed was fetched five times. *)
Definition four_reconnects : list (event (BinanceKlineClient.http_reply (json dec))) :=
  Connect (reply twenty) Started
    :: concat (replicate 4 [Open; Close; Wake 0 (reply twenty) Started]).

Definition seeded_five_times := (run kline four_reconnects kline_boot).1.

(** The seed holds the bar 1000; a live message updates that bar and the
    next one opens the bar 2000. *)
Definition seed_then_live : list (event (BinanceKlineClient.http_reply (json dec))) :=
  [Connect (reply [1000]) Started; Open; Message bar_1000; Message bar_2000].

(** The peer closes a seeded connection and the reconnect fetches the same
    seed again. *)
Definition seeded_twice : list (event (BinanceKlineClient.http_reply (json dec))) :=
  [Connect (reply [1000]) Started; Open; Close; Wake 0 (reply [1000]) Started].

(** Two live bars arrive with the later open-time first. *)
Definition out_of_order : list (event (BinanceKlineClient.http_reply (json dec))) :=
  [Connect BinanceKlineClient.HttpFailed Started; Open;
   Message bar_2000; Message bar_1000].

(** A ticker message, and a consumer that registered the message callback
    7 before the connection opened and the message arrived. *)
Definition ticker_message : string :=
  jtext "{'e':'24hrTicker','E':1700000000000,'s':'BTCUSDT','c':'65000.12','h':'66000','l':'64000','v':'1234.5','q':'80000000','p':'-120.5','P':'-0.18'}".

Definition watching : list (event unit) :=
  [SetOnMessage 7%nat; Connect tt Started; Open; Message ticker_message].

Definition watched_ticker := (run ticker watching ticker_boot).1.

(** The snapshot of a message none of whose fields is present. *)
Definition zero_ticker : BinanceWebSocketClient.ticker (RT:=runtime) :=
  BinanceWebSocketClient.Ticker (Dec 0 0) (Dec 0 0) (Dec 0 0) (Dec 0 0)
                                (Dec 0 0) (Dec 0 0) (Dec 0 0) 0.

(** A JSON object without members, a text that is not JSON, and a ticker
    message whose price is not a number. *)
Definition empty_object : string := "{}".
Definition not_json : string := "oops".
Definition bad_price : string := jtext "{'c':'abc','E':1700000000000}".

(** The kline client of [seeded_once] with the message callback 7. *)
Definition watched_kline :=
  (run kline (SetOnMessage 7%nat :: seeded_once) kline_boot).1.

Definition zero_kline : BinanceKlineClient.kline (RT:=runtime) :=
  BinanceKlineClient.Kline (Dec 0 0) (Dec 0 0) (Dec 0 0) (Dec 0 0) (Dec 0 0)
                           0 (JBool false).

(** An order-book client configured with depth 2, and a message with
    three bids and one ask. *)
Definition depth_client : BinanceDepthClient.state (RT:=runtime) :=
  self (BinanceDepthClient.init 2).

Definition depth_message : string :=
  jtext "{'E':1700000000001,'bids':[['100.5','1'],['100.4','2.5'],['100.3','7']],'asks':[['100.6','3']]}".

Definition depth_data : json dec :=
  JObj [("E", JInt 1700000000001);
        ("bids", JArr [JArr [JStr "100.5"; JStr "1"];
                       JArr [JStr "100.4"; JStr "2.5"];
                       JArr [JStr "100.3"; JStr "7"]]);
        ("asks", JArr [JArr [JStr "100.6"; JStr "3"]])].

Definition depth_book : BinanceDepthClient.book (RT:=runtime) :=
  BinanceDepthClient.Book [(Dec 1005 1, Dec 1 0); (Dec 1004 1, Dec 25 1)]
                          [(Dec 1006 1, Dec 3 0)] 1700000000001.

(** Two trade messages, and fifty of the first followed by the second. *)
Definition trade_a : string :=
  jtext "{'e':'aggTrade','p':'65000.10','q':'0.5','T':1700000000002,'m':true}".
Definition trade_b : string :=
  jtext "{'e':'aggTrade','p':'65000.20','q':'0.25','T':1700000000003,'m':false}".

Definition sold : BinanceTradesClient.trade (RT:=runtime) :=
  BinanceTradesClient.Trade (Dec 650001 1) (Dec 5 1) BinanceTradesClient.SELL
                            (JInt 1700000000002).
Definition bought : BinanceTradesClient.trade (RT:=runtime) :=
  BinanceTradesClient.Trade (Dec 650002 1) (Dec 25 2) BinanceTradesClient.BUY
                            (JInt 1700000000003).

Definition fifty_one : list string := replicate 50 trade_a ++ [trade_b].

(** What [ticker_message] decodes to, and its snapshot. *)
Definition ticker_data : json dec :=
  JObj [("e", JStr "24hrTicker"); ("E", JInt 1700000000000);
        ("s", JStr "BTCUSDT"); ("c", JStr "65000.12"); ("h", JStr "66000");
        ("l", JStr "64000"); ("v", JStr "1234.5"); ("q", JStr "80000000");
        ("p", JStr "-120.5"); ("P", JStr "-0.18")].

Definition ticker_snapshot : BinanceWebSocketClient.ticker (RT:=runtime) :=
  BinanceWebSocketClient.Ticker (Dec 6500012 2) (Dec 66000 0) (Dec 64000 0)
                                (Dec 12345 1) (Dec 80000000 0) (Dec (-1205) 1)
                                (Dec (-18) 2) 1700000000000.

(** After [disconnect] the consumer connects again; the connection opens,
    is closed by the peer, reports an error and is closed once more. *)
Definition reuse : list (event unit) :=
  [Connect tt Started; Open; Close; Error "reset"; Close].

(** [five_failures], then one more close and one socket error. *)
Definition failures_then_error : list (event unit) :=
  five_failures ++ [Close; Error "reset"].

(** A trades client with both callbacks, a socket and one trade. *)
Definition trading : BinanceTradesClient.client (RT:=runtime) :=
  (BinanceTradesClient.run
     [BinanceTradesClient.SetOnMessage 8%nat; BinanceTradesClient.SetOnError 9%nat;
      BinanceTradesClient.Connect 0%nat (BinanceTradesClient.Polled true);
      BinanceTradesClient.Message trade_a]
     BinanceTradesClient.__init__).1.

(** Order-book entries: three levels, and one that is not a pair. *)
Definition three_levels : list (json dec) :=
  [JArr [JStr "100.5"; JStr "1"]; JArr [JStr "100.4"; JStr "2.5"];
   JArr [JStr "100.3"; JStr "7"]].

End Scenarios.

(** * Properties *)

Section LifecycleFacts.
Import StreamClient Props.
Context {D P I : Type} (M : methods D P I) (HM : lawful M).

Lemma attempt_reconnect_link (c : client D) :
  link (_attempt_reconnect (P:=P) c).1 =
  (_attempt_reconnect (P:=P) (link c)).1.
Proof.
  unfold _attempt_reconnect; simpl.
  destruct (is_disconnecting c); [done|].
  by destruct (_ <? _).
Qed.

Lemma attempt_reconnect_counter (c : client D) :
  counter_ok c ->
  counter_ok (_attempt_reconnect (P:=P) c).1 /\
  Forall backoff_ok (_attempt_reconnect (P:=P) c).2.
Proof.
  intros [Hr Hm]. unfold _attempt_reconnect, counter_ok.
  destruct (is_disconnecting c); [by auto|].
  rewrite Hm. destruct (Z.ltb_spec (_reconnect_attempts c) 5) as [Hlt|Hge]; simpl.
  - split; [lia|]. unfold _reconnect_wait, wait_time; simpl.
    assert (Hcases : _reconnect_attempts c + 1 = 1 \/ _reconnect_attempts c + 1 = 2 \/
                     _reconnect_attempts c + 1 = 3 \/ _reconnect_attempts c + 1 = 4 \/
                     _reconnect_attempts c + 1 = 5) by lia.
    repeat constructor; try lia;
      try (exists (_reconnect_attempts c + 1); split; [lia|]);
      destruct Hcases as [-> | [-> | [-> | [-> | ->]]]]; done.
  - split; [lia|]. repeat constructor.
Qed.

Lemma quiet_backoff_ok (es : list (effect P)) :
  Forall quiet es -> Forall backoff_ok es.
Proof. intros H. eapply Forall_impl; [exact H|]. by intros []. Qed.

Lemma counter_ok_link (c : client D) (c' : client D) :
  link c' = link c -> counter_ok c -> counter_ok c'.
Proof.
  unfold counter_ok. intros Hl.
  assert (_reconnect_attempts c' = _reconnect_attempts c) as ->
    by exact (f_equal _reconnect_attempts Hl).
  assert (_max_reconnect_attempts c' = _max_reconnect_attempts c) as ->
    by exact (f_equal _max_reconnect_attempts Hl).
  done.
Qed.

Lemma run_ws_counter id o (c : client D) :
  counter_ok c ->
  counter_ok (_run_ws (P:=P) id o c).1 /\ Forall backoff_ok (_run_ws (P:=P) id o c).2.
Proof.
  intros Hc. destruct o; simpl.
  - split; [exact Hc | repeat constructor].
  - destruct (attempt_reconnect_counter c Hc) as [H1 H2].
    destruct (_attempt_reconnect c) as [c1 es]. simpl in *.
    split; [done | by constructor].
  - destruct (attempt_reconnect_counter (with_ws (Some id) c) Hc) as [H1 H2].
    destruct (_attempt_reconnect (with_ws (Some id) c)) as [c1 es]. simpl in *.
    split; [done | by constructor].
Qed.

Lemma connect_counter id o (c : client D) :
  counter_ok c ->
  counter_ok (connect (P:=P) id o c).1 /\ Forall backoff_ok (connect (P:=P) id o c).2.
Proof.
  intros Hc. unfold connect.
  destruct (run_ws_counter id o c Hc) as [H1 H2].
  destruct (_run_ws id o c) as [c1 es]. simpl in *.
  split; [done|]. apply Forall_app. split; [done | repeat constructor].
Qed.

Lemma m_connect_counter i id o (c : client D) :
  counter_ok c ->
  counter_ok (m_connect M i id o c).1 /\ Forall backoff_ok (m_connect M i id o c).2.
Proof.
  intros Hc. destruct (law_connect M HM i id o c) as (c0 & es0 & Hl & Hq & ->).
  destruct (connect_counter id o c0 (counter_ok_link c c0 Hl Hc)) as [H1 H2].
  destruct (connect id o c0) as [c1 es]. simpl in *.
  split; [done|]. apply Forall_app. split; [by apply quiet_backoff_ok | done].
Qed.

Lemma on_close_counter (c : client D) :
  counter_ok c ->
  counter_ok (_on_close (P:=P) c).1 /\ Forall backoff_ok (_on_close (P:=P) c).2.
Proof.
  intros Hc. unfold _on_close.
  destruct (negb (is_disconnecting (with_is_connected false c))).
  - destruct (attempt_reconnect_counter (with_is_connected false c) Hc) as [H1 H2].
    destruct (_attempt_reconnect (with_is_connected false c)) as [c1 es]. simpl in *.
    split; [done | by constructor].
  - split; [exact Hc | repeat constructor].
Qed.

Lemma handle_counter ev (w : world D) :
  counter_ok (self w) ->
  counter_ok (handle M ev w).1 /\ Forall backoff_ok (handle M ev w).2.
Proof.
  intros Hc. destruct ev as [cb|cb|i o| |m|e| |k i o|ok]; simpl.
  - split; [exact Hc | constructor].
  - split; [exact Hc | constructor].
  - by apply m_connect_counter.
  - split; [unfold counter_ok in *; simpl; lia | repeat constructor].
  - destruct (law_message M HM m (self w)) as [Hl Hq].
    split; [by eapply counter_ok_link | by apply quiet_backoff_ok].
  - split; [exact Hc|]. constructor; [done|]. by destruct (on_error_callback _); repeat constructor.
  - by apply on_close_counter.
  - destruct (sleepers w !! k); [by apply m_connect_counter|].
    split; [exact Hc | constructor].
  - destruct (law_disconnect M HM ok (self w)) as [clear ->].
    split; [exact Hc|]. unfold disconnect; simpl.
    constructor; [done|]. apply Forall_app. split; [|repeat constructor].
    destruct (ws (self w)); [|constructor].
    destruct ok; repeat constructor.
Qed.

Lemma step_self ev (w : world D) :
  self (step M ev w).1 = (handle M ev w).1 /\ (step M ev w).2 = (handle M ev w).2.
Proof. unfold step. by destruct (handle M ev w). Qed.

Lemma run_counter evs (w : world D) :
  counter_ok (self w) ->
  counter_ok (self (run M evs w).1) /\ Forall backoff_ok (run M evs w).2.
Proof.
  revert w. induction evs as [|ev evs IH]; intros w Hc; simpl.
  - split; [exact Hc | constructor].
  - destruct (handle_counter ev w Hc) as [H1 H2].
    destruct (step_self ev w) as [E1 E2].
    destruct (step M ev w) as [w1 es1]. simpl in *. subst es1.
    rewrite <- E1 in H1. destruct (IH w1 H1) as [H3 H4].
    destruct (run M evs w1) as [w2 es2]. simpl in *.
    split; [done | by apply Forall_app].
Qed.

End LifecycleFacts.


(** The three classes fit the shared lifecycle. *)
Section Lawful.
Import StreamClient Props.
Context {RT : PyRuntime}.

Lemma ticker_lawful : lawful BinanceWebSocketClient.methods.
Proof.
  split; simpl.
  - intros m c. unfold BinanceWebSocketClient._on_message.
    destruct (json_loads m) as [data|]; [|by repeat constructor].
    destruct (BinanceWebSocketClient.snapshot data); [|by repeat constructor].
    split; [done|]. destruct (on_message_callback c); by repeat constructor.
  - intros _ id o c. exists c, []. split; [done|]. split; [constructor|].
    by destruct (connect id o c).
  - intros ok c. by eexists.
Qed.

Lemma depth_lawful : lawful BinanceDepthClient.methods.
Proof.
  split; simpl.
  - intros m c. unfold BinanceDepthClient._on_message.
    destruct (json_loads m) as [data|]; [|by repeat constructor].
    destruct (BinanceDepthClient.snapshot _ data); [|by repeat constructor].
    split; [done|]. destruct (on_message_callback c); by repeat constructor.
  - intros _ id o c. exists c, []. split; [done|]. split; [constructor|].
    by destruct (connect id o c).
  - intros ok c. by eexists.
Qed.

Lemma fetch_link limit reply (c : BinanceKlineClient.state) :
  link (BinanceKlineClient._fetch_historical_klines limit reply c).1 = link c /\
  Forall quiet (BinanceKlineClient._fetch_historical_klines limit reply c).2.
Proof.
  unfold BinanceKlineClient._fetch_historical_klines.
  destruct reply as [|data]; [by repeat constructor|].
  destruct (py_iter data) as [rows|]; [|by repeat constructor].
  destruct (BinanceKlineClient.load_rows rows _) as [ks fin].
  split; [done|]. destruct fin; by repeat constructor.
Qed.

Lemma kline_lawful : lawful BinanceKlineClient.methods.
Proof.
  split; simpl.
  - intros m c. unfold BinanceKlineClient._on_message.
    destruct (json_loads m) as [data|]; [|by repeat constructor].
    destruct (BinanceKlineClient.bar_of data); [|by repeat constructor].
    split; [done|]. destruct (on_message_callback c); by repeat constructor.
  - intros reply id o c. unfold BinanceKlineClient.connect.
    destruct (fetch_link 20 reply c) as [Hl Hq].
    destruct (BinanceKlineClient._fetch_historical_klines 20 reply c) as [c0 es0].
    exists c0, es0. by destruct (connect id o c0).
  - intros ok c. by eexists.
Qed.

End Lawful.

(** ** Reconnection *)

Section Reconnection.
Import StreamClient Props.

(** C2, as the code has it. An unintended close that finds the attempt
    count at the maximum only writes two log records: the connection is
    marked closed, no reconnect thread is started, the count stays, and
    the error callback is not called. *)
Theorem close_at_max_attempts_only_logs {D P} (c : client D) :
  is_disconnecting c = false ->
  _reconnect_attempts c = _max_reconnect_attempts c ->
  _on_close (P:=P) c =
    (with_is_connected false c,
     [Log WARNING "WebSocket closed";
      Log ERROR "Max reconnection attempts reached"]).
Proof.
  intros Hd Hmax. unfold _on_close, _attempt_reconnect. simpl.
  rewrite Hd. simpl. rewrite Hmax, Z.ltb_irrefl. done.
Qed.

Lemma close_at_max_attempts_only_logs_witness :
  is_disconnecting (self Scenarios.exhausted) = false /\
  _reconnect_attempts (self Scenarios.exhausted) =
    _max_reconnect_attempts (self Scenarios.exhausted) /\
  _on_close (P:=unit) (self Scenarios.exhausted) =
    (with_is_connected false (self Scenarios.exhausted),
     [Log WARNING "WebSocket closed";
      Log ERROR "Max reconnection attempts reached"]).
Proof.
  split; [reflexivity|]. split; [reflexivity|].
  apply close_at_max_attempts_only_logs; reflexivity.
Defined.

(** C2 fails as stated: after five failed attempts, with an error
    callback registered, the next unintended close calls the error
    callback zero times, not once. *)
Lemma exhausted_close_skips_error_callback :
  _reconnect_attempts (self Scenarios.exhausted) = 5 /\
  is_disconnecting (self Scenarios.exhausted) = false /\
  on_error_callback (self Scenarios.exhausted) = Some 1%nat /\
  error_calls (step Scenarios.ticker Close Scenarios.exhausted).2 = [] /\
  length (error_calls (step Scenarios.ticker Close Scenarios.exhausted).2) <> 1%nat.
Proof. repeat split; try reflexivity. vm_compute. discriminate. Qed.

(** C1 on the code. Once [is_disconnecting] is set, a close event starts
    no reconnect thread and opens no connection; but a [_reconnect_wait]
    thread that was asleep calls [connect] when it wakes, and a new
    connection is opened. *)
Theorem stale_reconnect_wait_connects {D P I} (M : methods D P I)
    (w : world D) (k : nat) (i : I) :
  lawful M ->
  is_disconnecting (self w) = true ->
  is_Some (sleepers w !! k) ->
  (step M Close w).2 = [Log WARNING "WebSocket closed"] /\
  starts_connection (step M (Wake k i Started) w).2.
Proof.
  intros HM Hd [s Hs]. split.
  - unfold step; simpl. unfold _on_close; simpl. by rewrite Hd.
  - unfold step; simpl. rewrite Hs.
    destruct (law_connect M HM i (next_id w) Started (self w))
      as (c0 & es0 & _ & _ & ->).
    simpl. unfold starts_connection.
    apply Exists_app. right. by constructor.
Qed.

Lemma stale_reconnect_wait_connects_witness :
  is_disconnecting (self Scenarios.after_disconnect) = true /\
  is_Some (sleepers Scenarios.after_disconnect !! 0%nat) /\
  (step Scenarios.ticker Close Scenarios.after_disconnect).2 =
    [Log WARNING "WebSocket closed"] /\
  starts_connection
    (step Scenarios.ticker (Wake 0 tt Started) Scenarios.after_disconnect).2.
Proof.
  split; [reflexivity|]. split; [by eexists|].
  apply stale_reconnect_wait_connects;
    [apply ticker_lawful | reflexivity | by eexists].
Defined.

End Reconnection.

(** ** The kline series *)

Section KlineSeries.
Import StreamClient Props BinanceKlineClient.
Context {RT : PyRuntime}.

Lemma load_rows_appends (rows : list value) (series : list kline) :
  exists bars,
    load_rows rows series = (series ++ bars, bool_decide (length bars = length rows)) /\
    mapM kline_of_row (take (length bars) rows) = Some bars.
Proof.
  revert series. induction rows as [|k rest IH]; intros series; simpl.
  - exists []. by rewrite app_nil_r.
  - destruct (kline_of_row k) as [bar|] eqn:Hk.
    + destruct (IH (series ++ [bar])) as (bars & -> & Hm).
      exists (bar :: bars). rewrite <- app_assoc. simpl. split.
      * f_equal. apply bool_decide_ext. lia.
      * by rewrite Hk, Hm.
    + exists []. by rewrite app_nil_r.
Qed.

Lemma load_rows_loaded (rows : list value) (series : list kline) :
  (load_rows rows series).1 = series ++ loaded rows.
Proof.
  unfold loaded. revert series.
  induction rows as [|k rest IH]; intros series; simpl.
  - by rewrite app_nil_r.
  - destruct (kline_of_row k) as [bar|]; simpl; [|by rewrite app_nil_r].
    rewrite (IH (series ++ [bar])), (IH [bar]). by rewrite <- app_assoc.
Qed.

Lemma connect_held {D P} id o (c : client D) :
  held (StreamClient.connect (P:=P) id o c).1 = held c.
Proof.
  unfold StreamClient.connect, _run_ws, _attempt_reconnect.
  destruct o; simpl; [done| |];
    destruct (is_disconnecting c); simpl; try done;
    by destruct (_ <? _).
Qed.

Lemma set_last_snoc (init : list kline) (final bar : kline) :
  set_last (init ++ [final]) bar = init ++ [bar].
Proof.
  unfold set_last. rewrite length_app. simpl.
  replace (pred (length init + 1)) with (length init + 0)%nat by lia.
  by rewrite insert_app_r.
Qed.

Lemma same_candle_true (series : list kline) (bar : kline) :
  same_candle series bar = true <->
  exists init final, series = init ++ [final] /\ time final = time bar.
Proof.
  unfold same_candle. split.
  - destruct (last series) as [final|] eqn:Hl; [|done].
    intros Ht. apply last_Some in Hl as [init ->].
    exists init, final. split; [done|]. by apply Z.eqb_eq.
  - intros (init & final & -> & Ht). rewrite last_snoc. by apply Z.eqb_eq.
Qed.

Lemma push_length (series : list kline) (bar : kline) :
  (length series <= 100)%nat -> (length (push series bar) <= 100)%nat.
Proof.
  intros Hlen. unfold push.
  destruct (same_candle series bar) eqn:Hs.
  - unfold set_last. by rewrite length_insert.
  - simpl. destruct (Z.ltb_spec 100 (Z.of_nat (length (series ++ [bar])))) as [Hgt|Hle].
    + rewrite length_drop, length_app. simpl. lia.
    + lia.
Qed.

Lemma ascending_snoc (series : list kline) (bar : kline) :
  ascending series ->
  (forall final, last series = Some final -> time final < time bar) ->
  ascending (series ++ [bar]).
Proof.
  unfold ascending, open_times. intros Hs Hlast.
  rewrite fmap_app. simpl. apply StronglySorted_app. split; [|split; [done|]].
  - intros t1 t2 H1 H2. apply list_elem_of_singleton in H2 as ->.
    destruct (last series) as [final|] eqn:Hl.
    + specialize (Hlast final eq_refl).
      apply last_Some in Hl as [init ->].
      rewrite fmap_app in Hs, H1. simpl in *.
      apply elem_of_app in H1 as [H1|H1].
      * assert (t1 < time final); [|lia].
        eapply (StronglySorted_app_1_elem_of _ _ _ _ _ Hs); [done|]. by left.
      * apply list_elem_of_singleton in H1 as ->. done.
    + apply last_None in Hl as ->. by apply elem_of_nil in H1.
  - repeat constructor.
Qed.

Lemma ascending_drop (series : list kline) n :
  ascending series -> ascending (drop n series).
Proof.
  unfold ascending, open_times. intros Hs.
  rewrite <- (take_drop n series), fmap_app in Hs.
  by apply StronglySorted_app_1_r in Hs.
Qed.

Lemma push_ascending (series : list kline) (bar : kline) :
  ascending series -> not_before_last series bar -> ascending (push series bar).
Proof.
  intros Hs Hnb. unfold push.
  destruct (same_candle series bar) eqn:Hc.
  - apply same_candle_true in Hc as (init & final & -> & Ht).
    rewrite set_last_snoc. unfold ascending, open_times in *.
    rewrite fmap_app in *. simpl in *. by rewrite <- Ht.
  - assert (ascending (series ++ [bar])) as Ha.
    { apply ascending_snoc; [done|]. intros final Hl.
      unfold not_before_last in Hnb. unfold same_candle in Hc.
      rewrite Hl in Hnb, Hc. apply Z.eqb_neq in Hc. lia. }
    simpl. destruct (_ <? _); [by apply ascending_drop | done].
Qed.

Lemma ascending_app (series bars : list kline) :
  ascending series -> continues series bars -> ascending (series ++ bars).
Proof.
  intros Hs [Hb Hc]. unfold ascending, open_times in *.
  rewrite fmap_app. apply StronglySorted_app. split; [|done].
  intros t1 t2 H1 H2.
  destruct (last series) as [final|] eqn:Hl;
    [|apply last_None in Hl as ->; by apply elem_of_nil in H1].
  destruct bars as [|first rest]; [by apply elem_of_nil in H2|].
  simpl in Hc. apply last_Some in Hl as [init ->].
  assert (t1 <= time final) as Hle1.
  { rewrite fmap_app in Hs, H1. simpl in *.
    apply elem_of_app in H1 as [H1|H1].
    - apply Z.lt_le_incl.
      eapply (StronglySorted_app_1_elem_of _ _ _ _ _ Hs); [done|]. by left.
    - apply list_elem_of_singleton in H1 as ->. done. }
  assert (time first <= t2) as Hle2.
  { simpl in Hb, H2. apply StronglySorted_cons in Hb as [Hall _].
    apply elem_of_cons in H2 as [->|H2]; [done|].
    apply Z.lt_le_incl. by eapply Forall_forall in Hall. }
  lia.
Qed.

Lemma ascending_NoDup (series : list kline) :
  ascending series -> NoDup (open_times series).
Proof.
  unfold ascending. generalize (open_times series). intros ts.
  induction 1 as [|t ts Hs IH Hall]; constructor; [|done].
  intros Hin. eapply Forall_forall in Hall; [|done]. lia.
Qed.

Lemma on_message_klines (m : string) (self : state) :
  klines (held (_on_message m self).1) =
    match json_loads m ≫= bar_of with
    | Some bar => push (klines (held self)) bar
    | None => klines (held self)
    end.
Proof.
  unfold _on_message. destruct (json_loads m) as [data|]; simpl; [|done].
  by destruct (bar_of data).
Qed.

Lemma connect_klines reply id o (self : state) :
  klines (held (connect reply id o self).1) =
    match reply with
    | HttpBody data =>
        match py_iter data with
        | Some rows => klines (held self) ++ loaded rows
        | None => klines (held self)
        end
    | HttpFailed => klines (held self)
    end.
Proof.
  unfold connect.
  destruct (_fetch_historical_klines 20 reply self) as [c0 es0] eqn:Hf.
  pose proof (connect_held (P:=update) id o c0) as Hh.
  destruct (StreamClient.connect id o c0) as [c1 es1]. simpl in *. rewrite Hh.
  unfold _fetch_historical_klines in Hf.
  destruct reply as [|data]; [by inversion Hf|].
  destruct (py_iter data) as [rows|]; [|by inversion Hf].
  pose proof (load_rows_loaded rows (klines (held self))) as Hl.
  destruct (load_rows rows (klines (held self))) as [ks fin].
  inversion Hf; subst. done.
Qed.

Lemma on_close_held {D P} (c : client D) : held (_on_close (P:=P) c).1 = held c.
Proof.
  unfold _on_close, _attempt_reconnect. simpl.
  destruct (is_disconnecting c); simpl; [done|]. by destruct (_ <? _).
Qed.

Lemma step_ascending ev (w : world fields) :
  ascending (klines (held (self w))) -> in_order ev w ->
  ascending (klines (held (self (step methods ev w).1))).
Proof.
  intros Hs Hin.
  destruct (step_self methods ev w) as [-> _].
  destruct ev as [cb|cb|reply o| |m|e| |k reply o|ok]; simpl in *; try done.
  - rewrite connect_klines. destruct reply as [|data]; [done|].
    destruct (py_iter data) as [rows|] eqn:Hi; [|done].
    apply ascending_app; [done|]. by eapply Hin.
  - rewrite on_message_klines.
    destruct (json_loads m) as [data|] eqn:Hj; simpl; [|done].
    destruct (bar_of data) as [bar|] eqn:Hb; [|done].
    apply push_ascending; [done|]. by eapply Hin.
  - by rewrite on_close_held.
  - destruct (sleepers w !! k); [|done].
    rewrite connect_klines. destruct reply as [|data]; [done|].
    destruct (py_iter data) as [rows|] eqn:Hi; [|done].
    apply ascending_app; [done|]. by eapply Hin.
  - constructor.
Qed.

(** What a live kline message does to the series. For a message that
    decodes to [bar]: when the last held bar has the open-time of [bar] it is replaced
    in place and the length is unchanged; otherwise [bar] is appended and,
    if the length then exceeds 100, the oldest bar is dropped; a series of
    at most 100 bars has at most 100 bars afterwards. *)
Theorem kline_replace_or_append (m : string) (data : value) (bar : kline)
    (self : state) :
  json_loads m = Some data ->
  bar_of data = Some bar ->
  let series := klines (held self) in
  let after := klines (held (_on_message m self).1) in
  (forall final, last series = Some final -> time final = time bar ->
     after = take (length series - 1) series ++ [bar] /\
     length after = length series) /\
  ((forall final, last series = Some final -> time final <> time bar) ->
     after = if 100 <? Z.of_nat (length (series ++ [bar]))
             then drop 1 (series ++ [bar]) else series ++ [bar]) /\
  ((length series <= 100)%nat -> (length after <= 100)%nat).
Proof.
  intros Hj Hb series after.
  assert (after = push series bar) as ->.
  { unfold after. rewrite on_message_klines, Hj. simpl. by rewrite Hb. }
  split; [|split].
  - intros final Hl Ht. apply last_Some in Hl as [init Hs].
    assert (same_candle series bar = true) as Hc
      by (apply same_candle_true; eauto).
    unfold push. rewrite Hc, Hs, set_last_snoc, !length_app. simpl.
    replace (length init + 1 - 1)%nat with (length init) by lia.
    by rewrite take_app_length.
  - intros Hne. unfold push.
    destruct (same_candle series bar) eqn:Hc; [|done].
    apply same_candle_true in Hc as (init & final & Hs & Ht).
    exfalso. apply (Hne final); [|done]. rewrite Hs. apply last_snoc.
  - apply push_length.
Qed.

End KlineSeries.

Section KlineRuns.
Import StreamClient Props BinanceKlineClient.
#[local] Existing Instance Reference.runtime.

Lemma kline_replace_or_append_witness :
  json_loads Scenarios.bar_1000 = Some Scenarios.bar_1000_data /\
  bar_of Scenarios.bar_1000_data = Some Scenarios.bar_1000_kline /\
  let bar := Scenarios.bar_1000_kline in
  let series := klines (held (self Scenarios.open_kline)) in
  let after :=
    klines (held (_on_message Scenarios.bar_1000 (self Scenarios.open_kline)).1) in
  (forall final, last series = Some final -> time final = time bar ->
     after = take (length series - 1) series ++ [bar] /\
     length after = length series) /\
  ((forall final, last series = Some final -> time final <> time bar) ->
     after = if 100 <? Z.of_nat (length (series ++ [bar]))
             then drop 1 (series ++ [bar]) else series ++ [bar]) /\
  ((length series <= 100)%nat -> (length after <= 100)%nat).
Proof.
  split; [reflexivity|]. split; [reflexivity|].
  apply (kline_replace_or_append (RT:=Reference.runtime) Scenarios.bar_1000
           Scenarios.bar_1000_data);
    reflexivity.
Defined.

(** After five reconnects the series holds the seed six times, 120 bars;
    a live bar with a new open-time is appended and one bar is dropped,
    which leaves 120 bars, more than 100. *)
Lemma reseeded_series_exceeds_cap :
  length (klines (held (self Scenarios.reseeded))) = 120%nat /\
  (let after :=
     klines (held (self (step Scenarios.kline (Message Scenarios.bar_9000000)
                              Scenarios.reseeded).1)) in
   time <$> last after = Some 9000000 /\ length after = 120%nat /\
   ~ (length after <= 100)%nat).
Proof.
  assert (forall after : list kline, length after = 120%nat ->
            ~ (length after <= 100)%nat) as Hgt by (intros ? ->; lia).
  split; [reflexivity|]. split; [reflexivity|]. split; [reflexivity|].
  apply Hgt. reflexivity.
Qed.

End KlineRuns.

Section KlineOrder.
Import StreamClient Props BinanceKlineClient.
Context {RT : PyRuntime}.

Lemma run_ascending evs (w : world fields) :
  ascending (klines (held (self w))) -> all_in_order evs w ->
  ascending (klines (held (self (run methods evs w).1))).
Proof.
  revert w. induction evs as [|ev evs IH]; intros w Hs Hin; simpl; [done|].
  destruct Hin as [Hev Hrest].
  pose proof (step_ascending ev w Hs Hev) as H1.
  destruct (step methods ev w) as [w1 es1]. simpl in *.
  specialize (IH w1 H1 Hrest).
  by destruct (run methods evs w1).
Qed.

(** C6, as the code has it. The series is compared with its last bar only.
    In a run from the constructor in which every live bar opens no earlier
    than the last held bar, and the bars of every seed reply are ascending
    and open after the last held bar, the series is strictly ascending by
    open-time and holds at most one bar per open-time. *)
Theorem series_ascending_when_in_order
    (evs : list (event (http_reply value))) :
  all_in_order evs init ->
  let series := klines (held (self (run methods evs init).1)) in
  ascending series /\ NoDup (open_times series).
Proof.
  intros Hin series.
  assert (ascending series) as Hs.
  { apply run_ascending; [constructor | done]. }
  split; [done | by apply ascending_NoDup].
Qed.

(** C9, as the code has it. [connect] has no guard: whatever the state, a
    call whose [_run_ws] succeeds replaces [ws] by a new connection and
    starts it; the kline client first appends the bars of the seed reply to
    the series it holds; the trades client starts a connection as well. *)
Theorem connect_always_spawns :
  (forall D P id (c : client D),
     StreamClient.connect (P:=P) id Started c =
       (with_ws (Some id) c,
        [StartWs id; Log INFO "WebSocket connection started"])) /\
  (forall reply id (c : state),
     starts_connection (connect reply id Started c).2 /\
     ws (connect reply id Started c).1 = Some id /\
     klines (held (connect reply id Started c).1) =
       match reply with
       | HttpBody data =>
           match py_iter data with
           | Some rows => klines (held c) ++ loaded rows
           | None => klines (held c)
           end
       | HttpFailed => klines (held c)
       end) /\
  (forall id seen (c : BinanceTradesClient.client),
     starts_connection (BinanceTradesClient.connect id (BinanceTradesClient.Polled seen) c).2 /\
     BinanceTradesClient.ws
       (BinanceTradesClient.connect id (BinanceTradesClient.Polled seen) c).1 = Some id).
Proof.
  split; [done|]. split.
  - intros reply id c. split; [|split].
    + unfold connect.
      destruct (_fetch_historical_klines 20 reply c) as [c0 es0]. simpl.
      apply Exists_app. right. by constructor.
    + unfold connect.
      by destruct (_fetch_historical_klines 20 reply c) as [c0 es0].
    + apply connect_klines.
  - intros id seen c. destruct seen; simpl; (split; [by constructor | done]).
Qed.

End KlineOrder.

Section KlineOrderRuns.
Import StreamClient Props BinanceKlineClient.
#[local] Existing Instance Reference.runtime.

Lemma series_ascending_when_in_order_witness :
  all_in_order Scenarios.seed_then_live init /\
  let series :=
    klines (held (self (run methods Scenarios.seed_then_live init).1)) in
  ascending series /\ NoDup (open_times series).
Proof.
  assert (all_in_order Scenarios.seed_then_live init) as Hin.
  { split; [|split; [done|split; [|split; [|done]]]].
    - intros data rows [= <-] [= <-]. split; [|done]. repeat constructor.
    - intros data bar Hd Hb.
      assert (json_loads Scenarios.bar_1000 ≫= bar_of = Some bar) as Hdb
        by (rewrite Hd; exact Hb).
      assert (time <$> Some bar = Some 1000) as Ht
        by (rewrite <- Hdb; reflexivity).
      injection Ht as Ht.
      match goal with
      | |- not_before_last ?s bar =>
          assert (time <$> last s = Some 1000) as Hl by reflexivity;
          unfold not_before_last; destruct (last s); simpl in Hl;
          [injection Hl as Hl; lia | done]
      end.
    - intros data bar Hd Hb.
      assert (json_loads Scenarios.bar_2000 ≫= bar_of = Some bar) as Hdb
        by (rewrite Hd; exact Hb).
      assert (time <$> Some bar = Some 2000) as Ht
        by (rewrite <- Hdb; reflexivity).
      injection Ht as Ht.
      match goal with
      | |- not_before_last ?s bar =>
          assert (time <$> last s = Some 1000) as Hl by reflexivity;
          unfold not_before_last; destruct (last s); simpl in Hl;
          [injection Hl as Hl; lia | done]
      end. }
  split; [exact Hin|].
  apply (series_ascending_when_in_order (RT:=Reference.runtime)). exact Hin.
Defined.

(** C6 fails as stated: two live bars that arrive with the later open-time
    first are both appended, and a reconnect appends the seed a second
    time. *)
Lemma series_out_of_order_and_duplicated :
  (let series :=
     klines (held (self (run Scenarios.kline Scenarios.out_of_order
                             Scenarios.kline_boot).1)) in
   open_times series = [2000; 1000] /\ ~ ascending series) /\
  (let series :=
     klines (held (self (run Scenarios.kline Scenarios.seeded_twice
                             Scenarios.kline_boot).1)) in
   open_times series = [1000; 1000] /\ ~ NoDup (open_times series)).
Proof.
  split.
  - assert (forall series : list kline,
              open_times series = [2000; 1000] -> ~ ascending series) as Hno.
    { unfold ascending. intros series -> Hs.
      apply StronglySorted_cons in Hs as [Hall _].
      apply Forall_cons in Hall as [Hlt _]. lia. }
    split; [reflexivity | apply Hno; reflexivity].
  - assert (forall ts : list Z, ts = [1000; 1000] -> ~ NoDup ts) as Hno.
    { intros ts -> Hnd. apply NoDup_cons in Hnd as [Hnot _].
      apply Hnot. by left. }
    split; [reflexivity | apply Hno; reflexivity].
Qed.

(** C9 fails as stated: the kline client is connected and open; a second
    [connect] starts a second connection and appends the seed again, so the
    series grows from one bar to two. *)
Lemma second_connect_spawns_and_reseeds :
  is_connected (self Scenarios.open_kline) = true /\
  ws (self Scenarios.open_kline) = Some 0%nat /\
  length (klines (held (self Scenarios.open_kline))) = 1%nat /\
  (let again :=
     step Scenarios.kline (Connect (Scenarios.reply [1000]) Started)
          Scenarios.open_kline in
   filter (fun e => is_start_ws e = true) again.2 = [StartWs 1] /\
   ws (self again.1) = Some 1%nat /\
   length (klines (held (self again.1))) = 2%nat /\
   self again.1 <> self Scenarios.open_kline).
Proof.
  repeat split; try reflexivity.
  intros Heq. apply (f_equal ws) in Heq. discriminate Heq.
Qed.

End KlineOrderRuns.

(** ** Malformed messages *)

Section Malformed.
Import StreamClient Props.
Context {RT : PyRuntime}.

Lemma get_rejected {A} (conv : value -> option A) members key dflt :
  rejected conv members key ->
  py_get (JObj members) key dflt ≫= conv = None.
Proof. intros (v & Ha & Hc). simpl. by rewrite Ha. Qed.

Lemma ticker_snapshot_fields data t :
  BinanceWebSocketClient.snapshot data = Some t ->
  (forall key, key ∈ (["c"; "h"; "l"; "v"; "q"; "p"; "P"] : list string) ->
     is_Some (py_get data key (JInt 0) ≫= py_float)) /\
  is_Some (py_get data "E" (JInt 0) ≫= py_int).
Proof.
  unfold BinanceWebSocketClient.snapshot. intros H.
  repeat lazymatch type of H with
    | ?a ≫= _ = Some _ => destruct a eqn:?; simpl in H; [|discriminate]
    end.
  split; [|by eexists].
  intros key Hk.
  repeat (apply elem_of_cons in Hk as [->|Hk]; [by eexists|]).
  by apply elem_of_nil in Hk.
Qed.

Lemma ticker_rejected_none members :
  (exists key, key ∈ (["c"; "h"; "l"; "v"; "q"; "p"; "P"] : list string) /\
               rejected py_float members key) \/
  rejected py_int members "E" ->
  BinanceWebSocketClient.snapshot (JObj members) = None.
Proof.
  intros Hbad.
  destruct (BinanceWebSocketClient.snapshot (JObj members)) as [t|] eqn:Hs; [|done].
  apply ticker_snapshot_fields in Hs as [Hf He].
  destruct Hbad as [(key & Hk & Hr)|Hr].
  - specialize (Hf key Hk). rewrite (get_rejected _ _ _ _ Hr) in Hf.
    by apply is_Some_None in Hf.
  - rewrite (get_rejected _ _ _ _ Hr) in He. by apply is_Some_None in He.
Qed.

Lemma depth_rejected_none n members :
  rejected (BinanceDepthClient.levels_of n) members "bids" \/
  rejected (BinanceDepthClient.levels_of n) members "asks" \/
  rejected py_int members "E" ->
  BinanceDepthClient.snapshot n (JObj members) = None.
Proof.
  unfold BinanceDepthClient.snapshot, BinanceDepthClient.side_of.
  intros [Hr|[Hr|Hr]]; rewrite (get_rejected _ _ _ _ Hr).
  - done.
  - by destruct (py_get _ "bids" _ ≫= _).
  - destruct (py_get _ "bids" _ ≫= _); [|done].
    by destruct (py_get _ "asks" _ ≫= _).
Qed.

Lemma bar_of_fields data bar :
  BinanceKlineClient.bar_of data = Some bar ->
  exists k, py_get data "k" (JObj []) = Some k /\
    (forall key, key ∈ (["o"; "h"; "l"; "c"; "v"] : list string) ->
       is_Some (py_get k key (JInt 0) ≫= py_float)) /\
    is_Some (py_get k "t" (JInt 0) ≫= py_int).
Proof.
  unfold BinanceKlineClient.bar_of. intros H.
  destruct (py_get data "k" _) as [k|]; cbn [mbind option_bind] in H; [|discriminate].
  exists k. split; [done|].
  repeat lazymatch type of H with
    | ?a ≫= _ = Some _ =>
        destruct a eqn:?; cbn [mbind option_bind] in H; [|discriminate]
    end.
  split; [|by eexists].
  intros key Hk.
  repeat (apply elem_of_cons in Hk as [->|Hk]; [by eexists|]).
  by apply elem_of_nil in Hk.
Qed.

Lemma kline_rejected_none members :
  match default (JObj []) (assoc "k" members) with
  | JObj inner =>
      (exists key, key ∈ (["o"; "h"; "l"; "c"; "v"] : list string) /\
                   rejected py_float inner key) \/
      rejected py_int inner "t"
  | _ => True
  end ->
  BinanceKlineClient.bar_of (JObj members) = None.
Proof.
  intros Hbad.
  destruct (BinanceKlineClient.bar_of (JObj members)) as [bar|] eqn:Hs; [|done].
  apply bar_of_fields in Hs as (k & Hk & Hf & He).
  assert (default (JObj []) (assoc "k" members) = k) as Hd
    by (simpl in Hk; by injection Hk).
  rewrite Hd in Hbad. clear Hd Hk.
  destruct k as [| | | | | |inner];
    try (simpl in He; by apply is_Some_None in He).
  destruct Hbad as [(key & Hin & Hr)|Hr].
  - specialize (Hf key Hin). rewrite (get_rejected _ _ _ _ Hr) in Hf.
    by apply is_Some_None in Hf.
  - rewrite (get_rejected _ _ _ _ Hr) in He. by apply is_Some_None in He.
Qed.

Lemma trade_rejected_none members :
  (exists key, key ∈ (["p"; "q"] : list string) /\ rejected py_float members key) ->
  BinanceTradesClient.trade_of (JObj members) = None.
Proof.
  unfold BinanceTradesClient.trade_of. intros (key & Hk & Hr).
  apply elem_of_cons in Hk as [->|Hk].
  - by rewrite (get_rejected _ _ _ _ Hr).
  - apply elem_of_cons in Hk as [->|Hk]; [|by apply elem_of_nil in Hk].
    rewrite (get_rejected _ _ _ _ Hr).
    by destruct (py_get _ "p" _ ≫= _).
Qed.

Lemma ticker_drops m self :
  malformed_ticker m -> dropped (BinanceWebSocketClient._on_message m self) self.
Proof.
  unfold malformed_ticker, BinanceWebSocketClient._on_message.
  destruct (json_loads m) as [[| | | | | |members]|]; try (intros _; by split).
  intros Hbad. rewrite (ticker_rejected_none _ Hbad). by split.
Qed.

Lemma depth_drops m self :
  malformed_depth (BinanceDepthClient.depth (held self)) m ->
  dropped (BinanceDepthClient._on_message m self) self.
Proof.
  unfold malformed_depth, BinanceDepthClient._on_message.
  destruct (json_loads m) as [[| | | | | |members]|]; try (intros _; by split).
  intros Hbad. rewrite (depth_rejected_none _ _ Hbad). by split.
Qed.

Lemma kline_drops m self :
  malformed_kline m -> dropped (BinanceKlineClient._on_message m self) self.
Proof.
  unfold malformed_kline, BinanceKlineClient._on_message.
  destruct (json_loads m) as [[| | | | | |members]|]; try (intros _; by split).
  intros Hbad. rewrite (kline_rejected_none _ Hbad). by split.
Qed.

Lemma trade_drops m self :
  malformed_trade m -> dropped (BinanceTradesClient._on_message m self) self.
Proof.
  unfold malformed_trade, BinanceTradesClient._on_message.
  destruct (BinanceTradesClient.is_running self); [|intros _; by split].
  cbn [negb].
  destruct (json_loads m) as [[| | | | | |members]|]; try (intros _; by split).
  intros Hbad. cbn [mbind option_bind].
  rewrite (trade_rejected_none _ Hbad). by split.
Qed.

(** C4, amended. A message is dropped, that is the message callback is not
    called and no field of the client changes, when its text does not
    decode, or decodes to something that is not an object, or holds a
    member that the handler converts with a value the conversion raises
    on. This holds for the ticker, the order book, the candles and the
    trades. A member that is missing is not among these cases. *)
Theorem malformed_message_dropped :
  (forall m self, malformed_ticker m ->
     dropped (BinanceWebSocketClient._on_message m self) self) /\
  (forall m self, malformed_depth (BinanceDepthClient.depth (held self)) m ->
     dropped (BinanceDepthClient._on_message m self) self) /\
  (forall m self, malformed_kline m ->
     dropped (BinanceKlineClient._on_message m self) self) /\
  (forall m self, malformed_trade m ->
     dropped (BinanceTradesClient._on_message m self) self).
Proof.
  split; [exact ticker_drops|].
  split; [exact depth_drops|].
  split; [exact kline_drops|exact trade_drops].
Qed.

End Malformed.

Section MalformedRuns.
Import StreamClient Props.
#[local] Existing Instance Reference.runtime.

Lemma malformed_message_dropped_witness :
  malformed_ticker (H:=Reference.runtime) Scenarios.bad_price /\
  dropped (BinanceWebSocketClient._on_message (RT:=Reference.runtime)
             Scenarios.bad_price (self Scenarios.watched_ticker))
          (self Scenarios.watched_ticker).
Proof.
  assert (malformed_ticker (H:=Reference.runtime) Scenarios.bad_price) as Hbad.
  { left. exists "c"%string. split; [apply list_elem_of_here|].
    exists (JStr "abc"). split; reflexivity. }
  split; [exact Hbad|].
  apply (proj1 (malformed_message_dropped (RT:=Reference.runtime))). exact Hbad.
Defined.

(** C4 fails as stated: a message with no field at all is processed. On
    the ticker every field defaults to 0, the message callback is called
    with the all-zero snapshot and the snapshot held before is replaced;
    on the candles a bar with open-time 0 is appended to the series. *)
Lemma missing_fields_are_processed :
  (let s := self Scenarios.watched_ticker in
   let r := BinanceWebSocketClient._on_message Scenarios.empty_object s in
   (BinanceWebSocketClient.price <$> held s) = Some (Reference.Dec 6500012 2) /\
   message_calls r.2 = [CallOnMessage 7%nat Scenarios.zero_ticker] /\
   held r.1 = Some Scenarios.zero_ticker /\
   ~ dropped r s) /\
  (let s := self Scenarios.watched_kline in
   let r := BinanceKlineClient._on_message Scenarios.empty_object s in
   open_times (BinanceKlineClient.klines (held s)) = [1000] /\
   open_times (BinanceKlineClient.klines (held r.1)) = [1000; 0] /\
   BinanceKlineClient.last_data (held r.1) = Some Scenarios.zero_kline /\
   length (message_calls r.2) = 1%nat /\
   ~ dropped r s).
Proof.
  split.
  - split; [reflexivity|]. split; [reflexivity|]. split; [reflexivity|].
    intros [_ Hcalls]. discriminate Hcalls.
  - split; [reflexivity|]. split; [reflexivity|]. split; [reflexivity|].
    split; [reflexivity|].
    intros [_ Hcalls]. discriminate Hcalls.
Qed.

End MalformedRuns.

(** ** The order book *)

Section DepthBook.
Import StreamClient Props BinanceDepthClient.
Context {RT : PyRuntime}.

Lemma slice_to_take {A} (l : list A) (n : Z) :
  0 <= n -> slice_to l n = take (Z.to_nat n) l.
Proof. unfold slice_to. intros Hn. by rewrite (proj2 (Z.leb_le 0 n) Hn). Qed.

Lemma chars_take s k :
  chars (String.string_of_list_ascii (take k (String.list_ascii_of_string s)))
  = take k (chars s).
Proof.
  unfold chars. by rewrite String.list_ascii_of_string_of_list_ascii, fmap_take.
Qed.

Lemma slice_iter raw n cut entries :
  0 <= n -> py_slice_to raw n = Some cut -> py_iter cut = Some entries ->
  exists whole, py_iter raw = Some whole /\ entries = take (Z.to_nat n) whole.
Proof.
  intros Hn Hcut Hit.
  destruct raw; simpl in Hcut; try discriminate; injection Hcut as <-;
    simpl in Hit; injection Hit as <-; rewrite slice_to_take by done;
    eexists; (split; [reflexivity|]); [|done].
  apply chars_take.
Qed.

Lemma levels_of_cut n raw side :
  0 <= n -> levels_of n raw = Some side ->
  exists entries, py_iter raw = Some entries /\
    mapM level_of (take (Z.to_nat n) entries) = Some side /\
    Z.of_nat (length side) <= n.
Proof.
  unfold levels_of. intros Hn H.
  destruct (py_slice_to raw n) as [cut|] eqn:Hcut; [|discriminate].
  cbn [mbind option_bind] in H.
  destruct (py_iter cut) as [entries|] eqn:Hit; [|discriminate].
  cbn [mbind option_bind] in H.
  destruct (slice_iter _ _ _ _ Hn Hcut Hit) as (whole & Hw & ->).
  exists whole. split; [done|]. split; [done|].
  apply length_mapM in H. rewrite length_take in H. lia.
Qed.

Lemma side_of_cut n data key side :
  0 <= n -> side_of data key n = Some side -> truncated_side n data key side.
Proof.
  unfold side_of, truncated_side. intros Hn H.
  destruct (py_get data key (JArr [])) as [raw|]; [|discriminate].
  cbn [mbind option_bind] in *. by apply levels_of_cut.
Qed.

(** C8. With a depth that is not negative, the snapshot a depth message
    yields is stored, and each of its sides is: the entries of the
    message under [bids] (resp. [asks]), the first [depth] of them, each
    converted to the pair [(float(e[0]), float(e[1]))], in the order of
    the message; so each side is at most [depth] long. *)
Theorem depth_sides_cut_in_order (m : string) (data : value) (s : book)
    (self : state) :
  0 <= depth (held self) ->
  json_loads m = Some data ->
  snapshot (depth (held self)) data = Some s ->
  let n := depth (held self) in
  let after := (_on_message m self).1 in
  get_latest_data after = Some s /\
  truncated_side n data "bids" (bids s) /\
  truncated_side n data "asks" (asks s).
Proof.
  intros Hn Hload Hsnap n after. subst after.
  unfold _on_message. rewrite Hload, Hsnap. split; [reflexivity|].
  unfold snapshot in Hsnap. fold n in Hsnap.
  destruct (side_of data "bids" n) as [b|] eqn:Hb; [|discriminate].
  cbn [mbind option_bind] in Hsnap.
  destruct (side_of data "asks" n) as [a|] eqn:Ha; [|discriminate].
  cbn [mbind option_bind] in Hsnap.
  destruct (py_get data "E" (JInt 0) ≫= py_int); [|discriminate].
  injection Hsnap as <-. simpl.
  split; by apply side_of_cut.
Qed.

End DepthBook.

Section DepthRuns.
Import StreamClient Props BinanceDepthClient.
#[local] Existing Instance Reference.runtime.

Lemma depth_sides_cut_in_order_witness :
  let after := (_on_message Scenarios.depth_message Scenarios.depth_client).1 in
  get_latest_data after = Some Scenarios.depth_book /\
  truncated_side 2 Scenarios.depth_data "bids" (bids Scenarios.depth_book) /\
  truncated_side 2 Scenarios.depth_data "asks" (asks Scenarios.depth_book).
Proof.
  apply (depth_sides_cut_in_order (RT:=Reference.runtime)
           Scenarios.depth_message Scenarios.depth_data Scenarios.depth_book
           Scenarios.depth_client).
  - simpl. lia.
  - reflexivity.
  - reflexivity.
Defined.

End DepthRuns.

(** ** The trade log *)

Section TradeLog.
Import Props BinanceTradesClient.
Context {RT : PyRuntime}.

Lemma record_trade_take (cap : Z) log (t : trade) :
  0 <= cap -> record_trade cap log t = take (Z.to_nat cap) (t :: log).
Proof.
  unfold record_trade. intros Hcap.
  destruct (Z.ltb_spec cap (Z.of_nat (length (t :: log)))) as [Hlt|Hge].
  - by apply slice_to_take.
  - symmetry. apply take_ge. lia.
Qed.

Lemma take_cons_take {A} (n : nat) (x : A) l :
  take (S n) (x :: take (S n) l) = take (S n) (x :: l).
Proof. simpl. f_equal. rewrite take_take. f_equal. lia. Qed.

Lemma run_cons_state ev rest (self : client) :
  (run (ev :: rest) self).1 = (run rest (step ev self).1).1.
Proof.
  simpl. destruct (step ev self) as [s1 es1]. simpl.
  by destruct (run rest s1).
Qed.

Lemma on_message_records m t (self : client) :
  is_running self = true ->
  json_loads m ≫= trade_of = Some t ->
  (_on_message m self).1
  = with_trades (record_trade (max_trades self) (trades self) t) self.
Proof. unfold _on_message. by intros -> ->. Qed.

(** The log after the trades [ts] arrived one by one on a running client
    with the cap 50. *)
Lemma run_messages_fold msgs : forall ts (self : client),
  is_running self = true -> max_trades self = 50 ->
  mapM (fun m => json_loads m ≫= trade_of) msgs = Some ts ->
  trades (run (Message <$> msgs) self).1
  = fold_left (fun log t => take 50 (t :: log)) ts (trades self).
Proof.
  induction msgs as [|m msgs IH]; intros ts self Hrun Hcap Hts.
  - injection Hts as <-. reflexivity.
  - simpl in Hts.
    destruct (json_loads m ≫= trade_of) as [t|] eqn:Ht; [|discriminate].
    cbn [mbind option_bind] in Hts.
    destruct (mapM _ msgs) as [ts'|] eqn:Hts'; [|discriminate].
    injection Hts as <-.
    rewrite fmap_cons, run_cons_state. cbn [step].
    rewrite (on_message_records _ _ _ Hrun Ht), Hcap.
    rewrite (IH ts') by done. simpl.
    rewrite record_trade_take by lia. reflexivity.
Qed.

Lemma fold_front_insert (ts : list trade) log :
  ts <> [] ->
  fold_left (fun log t => take 50 (t :: log)) ts log
  = take 50 (reverse ts ++ log).
Proof.
  induction ts as [|t ts IH] using rev_ind; [done|]. intros _.
  rewrite fold_left_app, reverse_snoc. cbn [fold_left].
  destruct ts as [|t0 ts]; [reflexivity|].
  rewrite IH by done. apply (take_cons_take 49).
Qed.

(** C7. A running client with the cap 50 receives [K] well-formed trade
    messages. Its log is then the trades, newest first, followed by the
    log it had, cut to the first 50; when [K > 50] the log holds exactly
    50 trades and its first is the trade of the last message. *)
Theorem trades_newest_first_capped (msgs : list string) (ts : list trade)
    (self : client) :
  is_running self = true ->
  max_trades self = 50 ->
  mapM (fun m => json_loads m ≫= trade_of) msgs = Some ts ->
  let after := (run (Message <$> msgs) self).1 in
  (msgs <> [] -> trades after = take 50 (reverse ts ++ trades self)) /\
  ((50 < length msgs)%nat ->
     length (trades after) = 50%nat /\ head (trades after) = last ts).
Proof.
  intros Hrun Hcap Hts after. subst after.
  rewrite (run_messages_fold _ _ _ Hrun Hcap Hts).
  pose proof (length_mapM _ _ _ Hts) as Hlen.
  assert (msgs <> [] -> ts <> []) as Hne.
  { intros Hm ->. destruct msgs; [done|discriminate Hlen]. }
  split.
  - intros Hm. by apply fold_front_insert, Hne.
  - intros HK. rewrite fold_front_insert by (intros ->; simpl in Hlen; lia).
    split.
    + rewrite length_take, length_app, length_reverse. lia.
    + destruct ts as [|t ts] using rev_ind; [simpl in Hlen; lia|].
      by rewrite reverse_snoc, last_snoc.
Qed.

Lemma step_stopped ev (self : client) :
  is_running self = false -> is_running (step ev self).1 = false.
Proof.
  intros Hstop. destruct ev as [cb|cb|id o| m|e| |ok]; simpl; try done.
  - by destruct o as [| |[]].
  - unfold _on_message. by rewrite Hstop.
  - unfold disconnect. by destruct (ws _), ok.
Qed.

Lemma run_stopped evs : forall self : client,
  is_running self = false -> is_running (run evs self).1 = false.
Proof.
  induction evs as [|ev evs IH]; intros self Hstop; [done|].
  rewrite run_cons_state. by apply IH, step_stopped.
Qed.

Lemma disconnect_stops ok (self : client) :
  is_running (disconnect ok self).1 = false.
Proof. unfold disconnect. simpl. by destruct (ws self), ok. Qed.

(** C10. After [disconnect] was called on the trades client, whether or
    not closing the socket raised, and after any events that follow it,
    [is_running] is false and a delivered message changes no field and
    has no effect at all: the handler returns before it decodes the
    message, so neither the log changes nor is a callback called. *)
Theorem messages_ignored_after_disconnect (self : client) (ok : bool)
    (evs : list event) (m : string) :
  let stopped := (run evs (disconnect ok self).1).1 in
  is_running stopped = false /\ _on_message m stopped = (stopped, []).
Proof.
  intros stopped.
  assert (is_running stopped = false) as Hstop
    by apply run_stopped, disconnect_stops.
  split; [done|]. unfold _on_message. by rewrite Hstop.
Qed.

End TradeLog.

Section TradeRuns.
Import Props BinanceTradesClient.
#[local] Existing Instance Reference.runtime.

Lemma trades_newest_first_capped_witness :
  let after := (run (Message <$> Scenarios.fifty_one) __init__).1 in
  (Scenarios.fifty_one <> [] ->
   trades after
   = take 50 (reverse (replicate 50 Scenarios.sold ++ [Scenarios.bought])
              ++ trades __init__)) /\
  ((50 < length Scenarios.fifty_one)%nat ->
   length (trades after) = 50%nat /\
   head (trades after)
   = last (replicate 50 Scenarios.sold ++ [Scenarios.bought])).
Proof.
  apply (trades_newest_first_capped (RT:=Reference.runtime)
           Scenarios.fifty_one
           (replicate 50 Scenarios.sold ++ [Scenarios.bought]) __init__);
    reflexivity.
Defined.

End TradeRuns.

(** ** Display names of symbols *)

Section FormatSymbol.
Import Helpers.

Lemma upper_char_idemp c : upper_char (upper_char c) = upper_char c.
Proof. by destruct c as [[] [] [] [] [] [] [] []]. Qed.

Lemma upper_idemp s : upper (upper s) = upper s.
Proof.
  unfold upper. rewrite <- list_fmap_compose. apply list_fmap_ext.
  intros _ c _. apply upper_char_idemp.
Qed.

Lemma endswith_app base suffix : endswith (base ++ suffix) suffix = true.
Proof.
  unfold endswith. apply bool_decide_eq_true. rewrite length_app.
  split; [lia|].
  replace (length base + length suffix - length suffix)%nat with (length base) by lia.
  by rewrite drop_app_length.
Qed.

Lemma endswith_inv s suffix :
  endswith s suffix = true -> exists base, s = base ++ suffix.
Proof.
  unfold endswith. intros [Hlen Hdrop]%bool_decide_eq_true.
  exists (take (length s - length suffix) s).
  rewrite <- (take_drop (length s - length suffix) s) at 1. by rewrite Hdrop.
Qed.

Lemma endswith_other base suffix other :
  length suffix = length other -> suffix <> other ->
  endswith (base ++ suffix) other = false.
Proof.
  intros Hlen Hne. destruct (endswith _ other) eqn:He; [|done].
  apply endswith_inv in He as [base' He].
  apply app_inj_2 in He as [_ He]; done.
Qed.

Lemma slices_of_app {A} (base suffix : list A) (n : Z) :
  n < 0 -> Z.of_nat (length suffix) = - n ->
  slice_to (base ++ suffix) n = base /\
  slice_from (base ++ suffix) n = suffix.
Proof.
  intros Hneg Hn. unfold slice_to, slice_from.
  destruct (Z.leb_spec 0 n) as [Hle|_]; [lia|].
  rewrite length_app.
  replace (Z.to_nat (Z.of_nat (length base + length suffix) + n))
    with (length base) by lia.
  by rewrite take_app_length, drop_app_length.
Qed.

Lemma slice_to_from {A} (l : list A) (n : Z) : slice_to l n ++ slice_from l n = l.
Proof.
  unfold slice_to, slice_from. destruct (0 <=? n); apply take_drop.
Qed.

(** [format_symbol] loses nothing: its result is the upper-cased symbol,
    either as it is or with one slash put between a base and a quote
    that is not empty. *)
Theorem format_symbol_inserts_one_slash (symbol : list ascii) :
  exists base quote,
    upper symbol = base ++ quote /\
    format_symbol symbol
    = match quote with [] => base | _ => base ++ slash :: quote end.
Proof.
  unfold format_symbol.
  destruct (endswith (upper symbol) USDT);
    [eexists _, _; split; [symmetry; apply slice_to_from|reflexivity]|].
  destruct (endswith (upper symbol) USD);
    [eexists _, _; split; [symmetry; apply slice_to_from|reflexivity]|].
  destruct (endswith (upper symbol) BUSD);
    [eexists _, _; split; [symmetry; apply slice_to_from|reflexivity]|].
  destruct (first_non_alpha (upper symbol)) as [i|].
  - eexists _, _. split; [symmetry; apply take_drop|reflexivity].
  - exists (upper symbol), []. split; [by rewrite app_nil_r|reflexivity].
Qed.

(** A symbol that ends in USDT, in any case, is shown as base, slash,
    USDT. *)
Theorem format_symbol_usdt (symbol base : list ascii) :
  upper symbol = base ++ USDT ->
  format_symbol symbol = base ++ slash :: USDT.
Proof.
  intros Hup. unfold format_symbol. rewrite Hup, endswith_app.
  by destruct (slices_of_app base USDT (-4)) as [-> ->].
Qed.

(** The test for BUSD comes after the test for USD, which every symbol
    ending in BUSD passes: such a symbol is split before USD, not before
    BUSD, and the B stays with the base. *)
Theorem format_symbol_busd_splits_at_usd (symbol base : list ascii) :
  upper symbol = base ++ BUSD ->
  format_symbol symbol = (base ++ [ascii_of_nat 66]) ++ slash :: USD.
Proof.
  intros Hup. unfold format_symbol. rewrite Hup.
  rewrite (endswith_other base BUSD USDT) by done.
  change BUSD with ([ascii_of_nat 66] ++ USD). rewrite app_assoc.
  rewrite endswith_app.
  by destruct (slices_of_app (base ++ [ascii_of_nat 66]) USD (-3)) as [-> ->].
Qed.

(** The case of the letters of the symbol does not matter. *)
Theorem format_symbol_ignores_case (symbol : list ascii) :
  format_symbol (upper symbol) = format_symbol symbol.
Proof. unfold format_symbol. by rewrite upper_idemp. Qed.

Lemma first_non_alpha_none s :
  Forall (fun c => isalpha c = true) s -> first_non_alpha s = None.
Proof.
  induction 1 as [|c s Hc _ IH]; [done|]. simpl. by rewrite Hc, IH.
Qed.

(** A symbol made of letters that does not end in USD or USDT is shown
    upper-cased, without a slash. *)
Theorem format_symbol_unknown_quote (symbol : list ascii) :
  Forall (fun c => isalpha c = true) (upper symbol) ->
  endswith (upper symbol) USDT = false ->
  endswith (upper symbol) USD = false ->
  format_symbol symbol = upper symbol.
Proof.
  intros Halpha Husdt Husd. unfold format_symbol. rewrite Husdt, Husd.
  destruct (endswith (upper symbol) BUSD) eqn:Hbusd.
  - apply endswith_inv in Hbusd as [base Hb]. rewrite Hb in Husd.
    change BUSD with ([ascii_of_nat 66] ++ USD) in Husd.
    by rewrite app_assoc, endswith_app in Husd.
  - by rewrite first_non_alpha_none.
Qed.

Lemma format_symbol_usdt_witness :
  format_symbol (String.list_ascii_of_string "btcusdt")
  = String.list_ascii_of_string "BTC" ++ slash :: USDT.
Proof. apply format_symbol_usdt. reflexivity. Defined.

Lemma format_symbol_busd_splits_at_usd_witness :
  format_symbol (String.list_ascii_of_string "btcbusd")
  = (String.list_ascii_of_string "BTC" ++ [ascii_of_nat 66]) ++ slash :: USD.
Proof. apply format_symbol_busd_splits_at_usd. reflexivity. Defined.

Lemma format_symbol_unknown_quote_witness :
  format_symbol (String.list_ascii_of_string "ethbtc")
  = upper (String.list_ascii_of_string "ethbtc").
Proof.
  apply format_symbol_unknown_quote; [|reflexivity|reflexivity].
  repeat constructor.
Defined.

End FormatSymbol.

(** ** The life of a connection *)

Section Lifecycle.
Import StreamClient Props.
Context {D P I : Type} (M : methods D P I).

Lemma started_waits_app (es1 es2 : list (effect P)) :
  started_waits (es1 ++ es2) = started_waits es1 ++ started_waits es2.
Proof. unfold started_waits. apply omap_app. Qed.

Lemma started_waits_quiet (es : list (effect P)) :
  Forall quiet es -> started_waits es = [].
Proof.
  induction 1 as [|e es He _ IH]; [done|].
  destruct e; try done; exact IH.
Qed.

Lemma attempt_reconnect_disconnecting (c : client D) :
  is_disconnecting c = true -> _attempt_reconnect (P:=P) c = (c, []).
Proof. unfold _attempt_reconnect. by intros ->. Qed.

Lemma connect_disconnecting id o (c : client D) :
  is_disconnecting c = true ->
  is_disconnecting (connect (P:=P) id o c).1 = true /\
  started_waits (connect (P:=P) id o c).2 = [].
Proof.
  intros Hd. unfold connect, _run_ws. destruct o; simpl.
  - done.
  - by rewrite attempt_reconnect_disconnecting.
  - by rewrite attempt_reconnect_disconnecting.
Qed.

Lemma handle_disconnecting (HM : lawful M) ev (w : world D) :
  is_disconnecting (self w) = true ->
  is_disconnecting (handle M ev w).1 = true /\
  started_waits (handle M ev w).2 = [].
Proof.
  intros Hd.
  assert (forall i id o, is_disconnecting (m_connect M i id o (self w)).1 = true /\
                         started_waits (m_connect M i id o (self w)).2 = []) as Hconn.
  { intros i id o.
    destruct (law_connect M HM i id o (self w)) as (c0 & es0 & Hl & Hq & ->).
    assert (is_disconnecting c0 = true) as Hd0
      by (rewrite <- Hd; exact (f_equal is_disconnecting Hl)).
    destruct (connect_disconnecting id o c0 Hd0) as [H1 H2].
    destruct (connect id o c0) as [c1 es]. simpl in *.
    split; [done|]. by rewrite started_waits_app, (started_waits_quiet _ Hq), H2. }
  destruct ev as [cb|cb|i o| |m|e| |k i o|ok]; simpl.
  - done.
  - done.
  - apply Hconn.
  - done.
  - destruct (law_message M HM m (self w)) as [Hl Hq]. split.
    + rewrite <- Hd. exact (f_equal is_disconnecting Hl).
    + by apply started_waits_quiet.
  - split; [done|]. by destruct (on_error_callback _).
  - unfold _on_close. simpl. by rewrite Hd.
  - destruct (sleepers w !! k); [apply Hconn|done].
  - destruct (law_disconnect M HM ok (self w)) as [clear ->].
    unfold disconnect. simpl. split; [done|].
    by destruct (ws (self w)), ok.
Qed.

Lemma run_cons_world ev evs (w : world D) :
  run M (ev :: evs) w
  = ((run M evs (step M ev w).1).1, (step M ev w).2 ++ (run M evs (step M ev w).1).2).
Proof.
  simpl. destruct (step M ev w) as [w1 es1]. simpl.
  by destruct (run M evs w1).
Qed.

Lemma step_handle ev (w : world D) :
  self (step M ev w).1 = (handle M ev w).1 /\ (step M ev w).2 = (handle M ev w).2.
Proof. unfold step. by destruct (handle M ev w). Qed.

Lemma run_disconnecting (HM : lawful M) evs : forall w : world D,
  is_disconnecting (self w) = true ->
  is_disconnecting (self (run M evs w).1) = true /\
  started_waits (run M evs w).2 = [].
Proof.
  induction evs as [|ev evs IH]; intros w Hd; [done|].
  rewrite run_cons_world. simpl.
  destruct (handle_disconnecting HM ev w Hd) as [H1 H2].
  destruct (step_handle ev w) as [E1 E2].
  rewrite <- E1 in H1. destruct (IH _ H1) as [H3 H4].
  split; [done|]. by rewrite started_waits_app, E2, H2, H4.
Qed.

(** Once [disconnect] has run, [is_disconnecting] stays set whatever
    happens next, also when [connect] is called again, and no handler
    starts a [_reconnect_wait] thread any more. *)
Theorem no_reconnect_thread_after_disconnect (w : world D) (ok : bool)
    (evs : list (event I)) :
  lawful M ->
  let closed := (step M (Disconnect ok) w).1 in
  is_disconnecting (self closed) = true /\
  is_disconnecting (self (run M evs closed).1) = true /\
  started_waits (run M evs closed).2 = [].
Proof.
  intros HM closed.
  assert (is_disconnecting (self closed) = true) as Hd.
  { subst closed. destruct (step_handle (Disconnect ok) w) as [-> _]. simpl.
    by destruct (law_disconnect M HM ok (self w)) as [clear ->]. }
  split; [done|]. by apply run_disconnecting.
Qed.

Lemma error_calls_app (es1 es2 : list (effect P)) :
  error_calls (es1 ++ es2) = error_calls es1 ++ error_calls es2.
Proof. unfold error_calls. apply filter_app. Qed.

Lemma error_calls_none (es : list (effect P)) :
  Forall (fun e => is_error_call e = false) es -> error_calls es = [].
Proof.
  induction 1 as [|e es He _ IH]; [done|].
  destruct e; try done; exact IH.
Qed.

Lemma quiet_no_error_call (es : list (effect P)) :
  Forall quiet es -> Forall (fun e => is_error_call e = false) es.
Proof. intros H. eapply Forall_impl; [exact H|]. by intros []. Qed.

Lemma attempt_reconnect_no_error_call (c : client D) :
  Forall (fun e => is_error_call e = false) (_attempt_reconnect (P:=P) c).2.
Proof.
  unfold _attempt_reconnect. destruct (is_disconnecting c); [constructor|].
  destruct (_ <? _); repeat constructor.
Qed.

Lemma connect_no_error_call id o (c : client D) :
  Forall (fun e => is_error_call e = false) (connect (P:=P) id o c).2.
Proof.
  unfold connect, _run_ws. destruct o.
  - repeat constructor.
  - pose proof (attempt_reconnect_no_error_call c) as H.
    destruct (_attempt_reconnect c) as [c1 es]. simpl in *.
    constructor; [done|]. apply Forall_app. split; [done|repeat constructor].
  - pose proof (attempt_reconnect_no_error_call (with_ws (Some id) c)) as H.
    destruct (_attempt_reconnect (with_ws (Some id) c)) as [c1 es]. simpl in *.
    constructor; [done|]. apply Forall_app. split; [done|repeat constructor].
Qed.

Lemma handle_no_error_call (HM : lawful M) ev (w : world D) :
  is_error_event ev = false ->
  Forall (fun e => is_error_call e = false) (handle M ev w).2.
Proof.
  assert (forall i id o,
            Forall (fun e => is_error_call e = false)
                   (m_connect M i id o (self w)).2) as Hconn.
  { intros i id o.
    destruct (law_connect M HM i id o (self w)) as (c0 & es0 & Hl & Hq & ->).
    pose proof (connect_no_error_call id o c0) as H.
    destruct (connect id o c0) as [c1 es]. simpl in *.
    apply Forall_app. split; [by apply quiet_no_error_call|done]. }
  destruct ev as [cb|cb|i o| |m|e| |k i o|ok]; simpl; intros Hev.
  - constructor.
  - constructor.
  - apply Hconn.
  - repeat constructor.
  - destruct (law_message M HM m (self w)) as [_ Hq].
    by apply quiet_no_error_call.
  - discriminate Hev.
  - unfold _on_close. destruct (negb _); [|repeat constructor].
    pose proof (attempt_reconnect_no_error_call (with_is_connected false (self w))) as H.
    destruct (_attempt_reconnect _) as [c1 es]. simpl in *.
    by constructor.
  - destruct (sleepers w !! k); [apply Hconn|constructor].
  - destruct (law_disconnect M HM ok (self w)) as [clear ->].
    unfold disconnect. simpl. destruct (ws (self w)), ok; repeat constructor.
Qed.

Lemma handle_error_calls (HM : lawful M) ev (w : world D) :
  (length (error_calls (handle M ev w).2)
   <= if is_error_event ev then 1 else 0)%nat.
Proof.
  destruct (is_error_event ev) eqn:Hev.
  - destruct ev; try discriminate Hev. simpl.
    destruct (on_error_callback _); simpl; lia.
  - by rewrite (error_calls_none _ (handle_no_error_call HM ev w Hev)).
Qed.

(** The error callback is reached from [_on_error] only: in any run it
    is called at most once per error the socket reports, so a close, a
    failed [connect] or the end of the reconnect attempts never reach
    it. *)
Theorem error_callback_only_on_socket_errors (w : world D)
    (evs : list (event I)) :
  lawful M ->
  (length (error_calls (run M evs w).2)
   <= length (filter (fun ev => is_error_event ev = true) evs))%nat.
Proof.
  intros HM. revert w. induction evs as [|ev evs IH]; intros w; [done|].
  rewrite run_cons_world. simpl. rewrite error_calls_app, length_app.
  destruct (step_handle ev w) as [_ ->].
  pose proof (handle_error_calls HM ev w) as H1.
  specialize (IH (step M ev w).1).
  rewrite filter_cons. destruct (is_error_event ev); simpl in *; lia.
Qed.

End Lifecycle.

Section Budget.
Import StreamClient Props.
Context {D P : Type}.

(** A connection that opened gives the reconnect attempts back: when it
    is closed by the peer, the reconnect that follows is attempt 1 and
    waits 2 seconds, whatever the counter was before it opened. *)
Theorem open_restores_reconnect_budget (c : client D) :
  is_disconnecting c = false ->
  0 < _max_reconnect_attempts c ->
  let closed := _on_close (P:=P) (_on_open (P:=P) c).1 in
  _reconnect_attempts closed.1 = 1 /\
  started_waits closed.2 = [2] /\
  is_connected closed.1 = false.
Proof.
  intros Hd Hmax. unfold _on_close, _on_open, _attempt_reconnect. simpl.
  rewrite Hd. simpl.
  destruct (Z.ltb_spec 0 (_max_reconnect_attempts c)) as [_|Hge]; [done|lia].
Qed.

(** Calling [connect] does not give the attempts back. On a client that
    used up its attempts, a [connect] whose socket starts leaves the
    counter at the maximum, so when that connection is closed before it
    opens no reconnect thread is started; and a [connect] whose socket
    cannot be built only logs. *)
Theorem connect_keeps_attempts_used (c : client D) (id : nat) :
  is_disconnecting c = false ->
  _reconnect_attempts c = _max_reconnect_attempts c ->
  let again := (connect (P:=P) id Started c).1 in
  _reconnect_attempts again = _max_reconnect_attempts again /\
  started_waits (_on_close (P:=P) again).2 = [] /\
  connect (P:=P) id CtorRaised c
  = (c, [Log ERROR "WebSocket error";
         Log ERROR "Max reconnection attempts reached";
         Log INFO "WebSocket connection started"]).
Proof.
  intros Hd Hmax. unfold connect, _run_ws, _on_close, _attempt_reconnect. simpl.
  rewrite Hd, Hmax, Z.ltb_irrefl. done.
Qed.

(** [disconnect] can be called again: a second call leaves every field
    as the first call left it. The first call clears both callbacks but
    keeps [self.ws], so the second call closes the same socket once
    more. *)
Theorem disconnect_twice (clear : D -> D) (ok ok' : bool) (c : client D) :
  (forall d, clear (clear d) = clear d) ->
  let once := disconnect (P:=P) clear ok c in
  let twice := disconnect (P:=P) clear ok' once.1 in
  twice.1 = once.1 /\
  on_message_callback once.1 = None /\
  on_error_callback once.1 = None /\
  is_connected once.1 = false /\
  ws once.1 = ws c /\
  (forall id, ws c = Some id -> CloseWs id ∈ twice.2).
Proof.
  intros Hclear. unfold disconnect. simpl. rewrite Hclear.
  repeat split; try done.
  intros id ->. apply list_elem_of_further, list_elem_of_here.
Qed.

End Budget.

(** ** More on the ticker *)

Section TickerFacts.
Import StreamClient Props BinanceWebSocketClient.
Context {RT : PyRuntime}.

(** [disconnect] empties [last_data] and clears the callbacks, but
    [_on_message] does not look at [is_disconnecting]: a message that
    arrives after [disconnect] is decoded and stored, so
    [get_latest_data] returns data again; only the callback is not
    called, because it was cleared. *)
Theorem late_ticker_message_is_stored (m : string) (data : value)
    (t : ticker) (ok : bool) (self : state) :
  json_loads m = Some data ->
  snapshot data = Some t ->
  let closed := (m_disconnect methods ok self).1 in
  get_latest_data closed = None /\
  _on_message m closed = (with_held (Some t) closed, [Log DEBUG "Received ticker"]) /\
  get_latest_data (_on_message m closed).1 = Some t.
Proof.
  intros Hload Hsnap closed. split; [reflexivity|].
  unfold _on_message. rewrite Hload, Hsnap. done.
Qed.

Ltac in_list := repeat first [apply list_elem_of_here | apply list_elem_of_further].

Lemma get_none_rejected {A} (conv : value -> option A) members key dflt :
  is_Some (conv dflt) ->
  py_get (JObj members) key dflt ≫= conv = None ->
  rejected conv members key.
Proof.
  intros Hd. simpl. unfold rejected.
  destruct (assoc key members) as [v|]; simpl; intros Hv.
  - by exists v.
  - rewrite Hv in Hd. by apply is_Some_None in Hd.
Qed.

(** When [float(0)] is defined, the ticker messages that decode to an
    object and are dropped are exactly those with a member that is
    present and that [float] (for c, h, l, v, q, p, P) or [int] (for E)
    raises on. Every other object is processed. *)
Theorem ticker_object_dropped_iff (members : list (string * value)) :
  is_Some (float_of_int 0) ->
  snapshot (JObj members) = None <->
  (exists key, key ∈ (["c"; "h"; "l"; "v"; "q"; "p"; "P"] : list string) /\
               rejected py_float members key) \/
  rejected py_int members "E".
Proof.
  intros Hzero. split; [|apply ticker_rejected_none].
  assert (forall key dflt, dflt = JInt 0 ->
            py_get (JObj members) key dflt ≫= py_float = None ->
            rejected py_float members key) as Hfloat.
  { intros key dflt -> Hnone. by apply (get_none_rejected py_float _ _ (JInt 0)). }
  assert (py_get (JObj members) "E" (JInt 0) ≫= py_int = None ->
          rejected py_int members "E") as Hint.
  { intros Hnone. by apply (get_none_rejected py_int _ _ (JInt 0)). }
  unfold snapshot. intros H.
  destruct (py_get (JObj members) "c" (JInt 0) ≫= py_float) eqn:Ec;
    [|left; exists "c"%string; split; [in_list|by apply (Hfloat _ (JInt 0))]].
  destruct (py_get (JObj members) "h" (JInt 0) ≫= py_float) eqn:Eh;
    [|left; exists "h"%string; split; [in_list|by apply (Hfloat _ (JInt 0))]].
  destruct (py_get (JObj members) "l" (JInt 0) ≫= py_float) eqn:El;
    [|left; exists "l"%string; split; [in_list|by apply (Hfloat _ (JInt 0))]].
  destruct (py_get (JObj members) "v" (JInt 0) ≫= py_float) eqn:Ev;
    [|left; exists "v"%string; split; [in_list|by apply (Hfloat _ (JInt 0))]].
  destruct (py_get (JObj members) "q" (JInt 0) ≫= py_float) eqn:Eq;
    [|left; exists "q"%string; split; [in_list|by apply (Hfloat _ (JInt 0))]].
  destruct (py_get (JObj members) "p" (JInt 0) ≫= py_float) eqn:Ep;
    [|left; exists "p"%string; split; [in_list|by apply (Hfloat _ (JInt 0))]].
  destruct (py_get (JObj members) "P" (JInt 0) ≫= py_float) eqn:Epp;
    [|left; exists "P"%string; split; [in_list|by apply (Hfloat _ (JInt 0))]].
  destruct (py_get (JObj members) "E" (JInt 0) ≫= py_int) eqn:Ee;
    [discriminate H|right; by apply Hint].
Qed.

End TickerFacts.

(** ** More on the candles *)

Section KlineFacts.
Import StreamClient Props BinanceKlineClient.
Context {RT : PyRuntime}.

Lemma push_last (series : list kline) (bar : kline) :
  last (push series bar) = Some bar.
Proof.
  unfold push. destruct (same_candle series bar) eqn:Hs.
  - apply same_candle_true in Hs as (init & final & -> & _).
    rewrite set_last_snoc. apply last_snoc.
  - cbv zeta. destruct (100 <? _) eqn:Hl; [|apply last_snoc].
    destruct series as [|x rest]; [discriminate Hl|].
    simpl. rewrite drop_0. apply last_snoc.
Qed.

(** After a live message was processed, its bar is the last bar of the
    series and also what [get_latest_data] returns, whether the bar
    replaced the last one or was appended, and whether or not a bar was
    evicted. *)
Theorem latest_bar_ends_series (m : string) (data : value) (bar : kline)
    (self : state) :
  json_loads m = Some data ->
  bar_of data = Some bar ->
  let after := (_on_message m self).1 in
  last (klines (held after)) = Some bar /\ get_latest_data after = Some bar.
Proof.
  intros Hload Hbar after. subst after.
  unfold _on_message. rewrite Hload, Hbar. simpl.
  split; [apply push_last|reflexivity].
Qed.

Lemma kline_of_row_closed (k : value) (bar : kline) :
  kline_of_row k = Some bar -> is_closed bar = JBool true.
Proof.
  unfold kline_of_row. intros H.
  repeat lazymatch type of H with
    | ?a ≫= _ = Some _ =>
        destruct a eqn:?; cbn [mbind option_bind] in H; [|discriminate]
    end.
  by injection H as <-.
Qed.

(** The historical fetch only appends: the bars held before stay at the
    front in their order, the bars it adds are marked closed, and
    [last_data] is not touched. When the request fails nothing is
    added. *)
Theorem seed_fetch_only_appends (limit : Z) (reply : http_reply value)
    (self : state) :
  let after := (_fetch_historical_klines limit reply self).1 in
  exists bars,
    klines (held after) = klines (held self) ++ bars /\
    Forall (fun bar => is_closed bar = JBool true) bars /\
    get_latest_data after = get_latest_data self /\
    (reply = HttpFailed -> bars = []).
Proof.
  unfold _fetch_historical_klines. destruct reply as [|data].
  - exists []. by rewrite app_nil_r.
  - destruct (py_iter data) as [rows|].
    + destruct (load_rows_appends rows (klines (held self))) as (bars & -> & Hbars).
      exists bars. simpl. split; [done|]. split; [|done].
      apply mapM_Some_1 in Hbars.
      induction Hbars as [|k bar ? ? Hk _ IH]; constructor; [|done].
      by apply kline_of_row_closed in Hk.
    + exists []. by rewrite app_nil_r.
Qed.

(** A series that holds 100 bars or more keeps its length under live
    messages: a bar is replaced, or one is appended and one evicted. A
    series that grew beyond 100 is therefore never cut back to 100. *)
Theorem long_series_keeps_length (m : string) (data : value) (bar : kline)
    (self : state) :
  json_loads m = Some data ->
  bar_of data = Some bar ->
  (100 <= length (klines (held self)))%nat ->
  length (klines (held (_on_message m self).1)) = length (klines (held self)).
Proof.
  intros Hload Hbar Hlen. rewrite on_message_klines, Hload. simpl.
  rewrite Hbar. unfold push, set_last.
  destruct (same_candle _ bar); [by rewrite length_insert|].
  cbv zeta. rewrite length_app. simpl.
  destruct (Z.ltb_spec 100 (Z.of_nat (length (klines (held self)) + 1))) as [_|Hle];
    [|lia].
  rewrite length_drop, length_app. simpl. lia.
Qed.

End KlineFacts.

(** ** More on the order book *)

Section DepthFacts.
Import StreamClient Props BinanceDepthClient.
Context {RT : PyRuntime}.

(** Only the first [depth] entries of a side are converted: what comes
    after them is not read, so an entry there that is not a pair of
    numbers does not make the message fail. *)
Theorem levels_beyond_depth_not_read (n : Z) (kept rest : list value) :
  0 <= n ->
  length kept = Z.to_nat n ->
  levels_of n (JArr (kept ++ rest)) = mapM level_of kept.
Proof.
  intros Hn Hlen. unfold levels_of. simpl.
  by rewrite slice_to_take, <- Hlen, take_app_length.
Qed.

Lemma slice_to_negative {A} (l : list A) (n : Z) :
  n < 0 -> slice_to l n = take (length l - Z.to_nat (- n)) l.
Proof.
  intros Hn. unfold slice_to. destruct (Z.leb_spec 0 n) as [Hle|_]; [lia|].
  f_equal. lia.
Qed.

(** With a negative depth the slice counts from the end: the last
    [-depth] entries are left out and all the others are converted, so
    the side can be longer than any bound the depth was meant to give. *)
Theorem negative_depth_cuts_from_end (n : Z) (items : list value) :
  n < 0 ->
  levels_of n (JArr items)
  = mapM level_of (take (length items - Z.to_nat (- n)) items).
Proof.
  intros Hn. unfold levels_of. simpl. by rewrite slice_to_negative.
Qed.

Lemma handle_depth n ev (w : world fields) :
  depth (held (self w)) = n -> depth (held (handle methods ev w).1) = n.
Proof.
  intros Hn. destruct ev as [cb|cb|i o| |m|e| |k i o|ok]; simpl.
  - done.
  - done.
  - by rewrite connect_held.
  - done.
  - unfold _on_message. destruct (json_loads m); [|done].
    by destruct (snapshot _ _).
  - done.
  - by rewrite on_close_held.
  - destruct (sleepers w !! k); [|done]. by rewrite connect_held.
  - done.
Qed.

(** The configured depth is never changed: in every state a run reaches
    it is the value the client was created with, also after
    [disconnect]. *)
Theorem configured_depth_is_kept (n : Z) (evs : list (event unit)) :
  depth (held (self (run methods evs (init n)).1)) = n.
Proof.
  assert (forall w : world fields, depth (held (self w)) = n ->
            depth (held (self (run methods evs w).1)) = n) as Hrun.
  { induction evs as [|ev evs IH]; intros w Hw; [done|].
    rewrite run_cons_world. simpl. apply IH.
    destruct (step_handle methods ev w) as [-> _]. by apply handle_depth. }
  by apply Hrun.
Qed.

End DepthFacts.

(** ** More on the trades *)

Section TradeFacts.
Import Props BinanceTradesClient.
Context {RT : PyRuntime}.

Lemma step_log_bounded ev (self : client) :
  max_trades self = 50 /\ (length (trades self) <= 50)%nat ->
  max_trades (step ev self).1 = 50 /\ (length (trades (step ev self).1) <= 50)%nat.
Proof.
  intros [Hcap Hlen]. destruct ev as [cb|cb|id o|m|e| |ok]; simpl; try done.
  - by destruct o as [| |[]].
  - unfold _on_message. destruct (negb _); [done|].
    destruct (json_loads m ≫= trade_of); [|done]. simpl.
    split; [done|]. rewrite Hcap, record_trade_take by lia.
    rewrite length_take. lia.
  - unfold disconnect. simpl. destruct (ws self), ok; simpl; split; done || lia.
Qed.

(** In every state the trades client reaches from its creation, the
    cap is 50 and the log holds at most 50 trades. *)
Theorem trades_log_bounded (evs : list event) :
  let reached := (run evs __init__).1 in
  max_trades reached = 50 /\ (length (trades reached) <= 50)%nat.
Proof.
  assert (forall self : client,
            max_trades self = 50 /\ (length (trades self) <= 50)%nat ->
            max_trades (run evs self).1 = 50 /\
            (length (trades (run evs self).1) <= 50)%nat) as Hrun.
  { induction evs as [|ev evs IH]; intros self Hinv; [done|].
    rewrite run_cons_state. by apply IH, step_log_bounded. }
  apply Hrun. simpl. split; [done|lia].
Qed.

(** When closing the socket raises, [disconnect] reaches its [except]
    clause before the callbacks and the log are cleared: the client
    stops processing messages but keeps the callbacks and the trades,
    and a later socket error still reaches the error callback. *)
Theorem failed_close_keeps_callbacks (id : nat) (e : string) (self : client) :
  ws self = Some id ->
  let left := (disconnect false self).1 in
  is_running left = false /\
  on_message_callback left = on_message_callback self /\
  on_error_callback left = on_error_callback self /\
  trades left = trades self /\
  error_calls (_on_error e left).2
  = match on_error_callback self with
    | Some cb => [CallOnError cb e]
    | None => []
    end.
Proof.
  intros Hws. unfold disconnect. simpl. rewrite Hws. simpl.
  repeat split. by destruct (on_error_callback self).
Qed.

Lemma step_starts ev (self : client) :
  StreamClient.started_waits (step ev self).2 = [] /\
  (length (filter (fun e => is_start_ws e = true) (step ev self).2)
   <= if is_trades_connect ev then 1 else 0)%nat.
Proof.
  destruct ev as [cb|cb|id o|m|e| |ok]; simpl; try done.
  - destruct o as [| |[]]; simpl; split; done || lia.
  - unfold _on_message. destruct (negb _); [done|].
    destruct (json_loads m ≫= trade_of); [|done]. simpl.
    by destruct (on_message_callback self).
  - by destruct (on_error_callback self).
  - unfold disconnect. simpl. by destruct (ws self), ok.
Qed.

Lemma run_cons_effects ev rest (self : client) :
  (run (ev :: rest) self).2 = (step ev self).2 ++ (run rest (step ev self).1).2.
Proof.
  simpl. destruct (step ev self) as [s1 es1]. simpl.
  by destruct (run rest s1).
Qed.

(** The trades client never reconnects by itself: no handler starts a
    reconnect thread, and a socket is started only by a call of
    [connect], at most one per call. *)
Theorem trades_client_never_reconnects (evs : list event) (self : client) :
  StreamClient.started_waits (run evs self).2 = [] /\
  (length (filter (fun e => is_start_ws e = true) (run evs self).2)
   <= length (filter (fun ev => is_trades_connect ev = true) evs))%nat.
Proof.
  revert self. induction evs as [|ev evs IH]; intros self; [done|].
  rewrite run_cons_effects.
  destruct (step_starts ev self) as [H1 H2].
  destruct (IH (step ev self).1) as [H3 H4].
  split.
  - unfold StreamClient.started_waits in *. by rewrite omap_app, H1, H3.
  - rewrite filter_app, length_app, filter_cons.
    destruct (is_trades_connect ev); simpl in *; lia.
Qed.

End TradeFacts.

(** ** The properties above on the scenarios *)

Section Evaluations.
Import StreamClient Props.
#[local] Existing Instance Reference.runtime.

Lemma no_reconnect_thread_after_disconnect_witness :
  let closed := (step Scenarios.ticker (Disconnect true) Scenarios.open_ticker).1 in
  is_disconnecting (self closed) = true /\
  is_disconnecting (self (run Scenarios.ticker Scenarios.reuse closed).1) = true /\
  started_waits (run Scenarios.ticker Scenarios.reuse closed).2 = [].
Proof.
  apply (no_reconnect_thread_after_disconnect Scenarios.ticker
           Scenarios.open_ticker true Scenarios.reuse).
  apply (ticker_lawful (RT:=Reference.runtime)).
Defined.

Lemma error_callback_only_on_socket_errors_witness :
  (length (error_calls (run Scenarios.ticker Scenarios.failures_then_error
                            Scenarios.ticker_boot).2)
   <= length (filter (fun ev => is_error_event ev = true)
                     Scenarios.failures_then_error))%nat.
Proof.
  apply (error_callback_only_on_socket_errors Scenarios.ticker).
  apply (ticker_lawful (RT:=Reference.runtime)).
Defined.

Lemma open_restores_reconnect_budget_witness :
  let closed :=
    _on_close (P:=BinanceWebSocketClient.ticker)
              (_on_open (P:=BinanceWebSocketClient.ticker)
                        (self Scenarios.exhausted)).1 in
  _reconnect_attempts closed.1 = 1 /\
  started_waits closed.2 = [2] /\
  is_connected closed.1 = false.
Proof.
  apply (open_restores_reconnect_budget (self Scenarios.exhausted)).
  - reflexivity.
  - reflexivity.
Defined.

Lemma connect_keeps_attempts_used_witness :
  let again :=
    (connect (P:=BinanceWebSocketClient.ticker) 6 Started
             (self Scenarios.exhausted)).1 in
  _reconnect_attempts again = _max_reconnect_attempts again /\
  started_waits (_on_close (P:=BinanceWebSocketClient.ticker) again).2 = [] /\
  connect (P:=BinanceWebSocketClient.ticker) 6 CtorRaised (self Scenarios.exhausted)
  = (self Scenarios.exhausted,
     [Log ERROR "WebSocket error";
      Log ERROR "Max reconnection attempts reached";
      Log INFO "WebSocket connection started"]).
Proof.
  apply (connect_keeps_attempts_used (self Scenarios.exhausted) 6).
  - reflexivity.
  - reflexivity.
Defined.

Lemma disconnect_twice_witness :
  let clear := fun _ : option BinanceWebSocketClient.ticker => None in
  let once :=
    disconnect (P:=BinanceWebSocketClient.ticker) clear true
               (self Scenarios.watched_ticker) in
  let twice := disconnect (P:=BinanceWebSocketClient.ticker) clear false once.1 in
  twice.1 = once.1 /\
  on_message_callback once.1 = None /\
  on_error_callback once.1 = None /\
  is_connected once.1 = false /\
  ws once.1 = ws (self Scenarios.watched_ticker) /\
  (forall id, ws (self Scenarios.watched_ticker) = Some id -> CloseWs id ∈ twice.2).
Proof.
  apply (disconnect_twice (fun _ => None) true false (self Scenarios.watched_ticker)).
  reflexivity.
Defined.

Lemma late_ticker_message_is_stored_witness :
  let closed :=
    (m_disconnect Scenarios.ticker true (self Scenarios.watched_ticker)).1 in
  BinanceWebSocketClient.get_latest_data closed = None /\
  BinanceWebSocketClient._on_message Scenarios.ticker_message closed
  = (with_held (Some Scenarios.ticker_snapshot) closed,
     [Log DEBUG "Received ticker"]) /\
  BinanceWebSocketClient.get_latest_data
    (BinanceWebSocketClient._on_message Scenarios.ticker_message closed).1
  = Some Scenarios.ticker_snapshot.
Proof.
  apply (late_ticker_message_is_stored (RT:=Reference.runtime)
           Scenarios.ticker_message Scenarios.ticker_data
           Scenarios.ticker_snapshot true (self Scenarios.watched_ticker)).
  - reflexivity.
  - reflexivity.
Defined.

Lemma ticker_object_dropped_iff_witness :
  BinanceWebSocketClient.snapshot (RT:=Reference.runtime)
    (JObj [("c"%string, JStr "abc")]) = None <->
  (exists key, key ∈ (["c"; "h"; "l"; "v"; "q"; "p"; "P"] : list string) /\
               rejected py_float [("c"%string, JStr "abc")] key) \/
  rejected py_int [("c"%string, JStr "abc")] "E".
Proof.
  apply (ticker_object_dropped_iff (RT:=Reference.runtime)).
  exists (Reference.Dec 0 0). reflexivity.
Defined.

Lemma latest_bar_ends_series_witness :
  let after :=
    (BinanceKlineClient._on_message Scenarios.bar_1000
       (self Scenarios.open_kline)).1 in
  last (BinanceKlineClient.klines (held after)) = Some Scenarios.bar_1000_kline /\
  BinanceKlineClient.get_latest_data after = Some Scenarios.bar_1000_kline.
Proof.
  apply (latest_bar_ends_series (RT:=Reference.runtime) Scenarios.bar_1000
           Scenarios.bar_1000_data Scenarios.bar_1000_kline
           (self Scenarios.open_kline)).
  - reflexivity.
  - reflexivity.
Defined.

Lemma long_series_keeps_length_witness :
  length (BinanceKlineClient.klines
            (held (BinanceKlineClient._on_message Scenarios.bar_1000
                     (self Scenarios.reseeded)).1))
  = length (BinanceKlineClient.klines (held (self Scenarios.reseeded))).
Proof.
  apply (long_series_keeps_length (RT:=Reference.runtime) Scenarios.bar_1000
           Scenarios.bar_1000_data Scenarios.bar_1000_kline
           (self Scenarios.reseeded)).
  - reflexivity.
  - reflexivity.
  - assert (length (BinanceKlineClient.klines (held (self Scenarios.reseeded)))
            = 120%nat) as -> by reflexivity.
    lia.
Defined.

Lemma levels_beyond_depth_not_read_witness :
  BinanceDepthClient.levels_of (RT:=Reference.runtime) 3
    (JArr (Scenarios.three_levels ++ [JNull; JStr "x"]))
  = mapM BinanceDepthClient.level_of Scenarios.three_levels.
Proof.
  apply (levels_beyond_depth_not_read (RT:=Reference.runtime) 3
           Scenarios.three_levels [JNull; JStr "x"]).
  - lia.
  - reflexivity.
Defined.

Lemma negative_depth_cuts_from_end_witness :
  BinanceDepthClient.levels_of (RT:=Reference.runtime) (-1)
    (JArr Scenarios.three_levels)
  = mapM BinanceDepthClient.level_of
      (take (length Scenarios.three_levels - Z.to_nat (- -1))
            Scenarios.three_levels).
Proof.
  apply (negative_depth_cuts_from_end (RT:=Reference.runtime) (-1)
           Scenarios.three_levels).
  lia.
Defined.

Lemma failed_close_keeps_callbacks_witness :
  let left := (BinanceTradesClient.disconnect false Scenarios.trading).1 in
  BinanceTradesClient.is_running left = false /\
  BinanceTradesClient.on_message_callback left
  = BinanceTradesClient.on_message_callback Scenarios.trading /\
  BinanceTradesClient.on_error_callback left
  = BinanceTradesClient.on_error_callback Scenarios.trading /\
  BinanceTradesClient.trades left = BinanceTradesClient.trades Scenarios.trading /\
  error_calls (BinanceTradesClient._on_error "reset" left).2
  = match BinanceTradesClient.on_error_callback Scenarios.trading with
    | Some cb => [CallOnError cb "reset"]
    | None => []
    end.
Proof.
  apply (failed_close_keeps_callbacks (RT:=Reference.runtime) 0 "reset"
           Scenarios.trading).
  reflexivity.
Defined.

End Evaluations.

(** ** The wait and the seed, once more *)

Section WaitAndSeed.
Import StreamClient Props.

(** The wait grows with the attempt number and is capped: from the
    first attempt on it is at least 1 second and at most 60, and from the
    sixth attempt on it is 60. *)
Theorem wait_time_grows_to_cap (n m : Z) :
  0 <= n -> n <= m ->
  1 <= wait_time n <= wait_time m /\
  wait_time m <= 60 /\
  (6 <= n -> wait_time n = 60).
Proof.
  intros Hn Hnm. unfold wait_time.
  assert (0 < 2 ^ n) by (apply Z.pow_pos_nonneg; lia).
  assert (2 ^ n <= 2 ^ m) by (apply Z.pow_le_mono_r; lia).
  split; [lia|]. split; [lia|].
  intros H6. assert (2 ^ 6 <= 2 ^ n) as Hp by (apply Z.pow_le_mono_r; lia).
  change (2 ^ 6) with 64 in Hp. lia.
Qed.

Lemma wait_time_grows_to_cap_witness :
  1 <= wait_time 6 <= wait_time 7 /\
  wait_time 7 <= 60 /\
  (6 <= 6 -> wait_time 6 = 60).
Proof. apply (wait_time_grows_to_cap 6 7); lia. Defined.

(** [disconnect] empties the series of the kline client, so a [connect]
    after it starts from the bars of the new historical fetch alone:
    nothing of the series held before the disconnect is left. *)
Theorem connect_after_disconnect_reseeds `{RT : PyRuntime} (ok : bool)
    (reply : BinanceKlineClient.http_reply value) (id : nat) (o : run_outcome)
    (self : BinanceKlineClient.state) :
  let closed := (m_disconnect BinanceKlineClient.methods ok self).1 in
  BinanceKlineClient.klines (held closed) = [] /\
  BinanceKlineClient.get_latest_data closed = None /\
  BinanceKlineClient.klines (held (BinanceKlineClient.connect reply id o closed).1)
  = match reply with
    | BinanceKlineClient.HttpBody data =>
        match py_iter data with
        | Some rows => loaded rows
        | None => []
        end
    | BinanceKlineClient.HttpFailed => []
    end.
Proof.
  intros closed. split; [reflexivity|]. split; [reflexivity|].
  rewrite connect_klines. destruct reply as [|data]; [reflexivity|].
  by destruct (py_iter data).
Qed.

End WaitAndSeed.

(** ** The progression of the reconnect attempts *)

Section Progression.
Import StreamClient Props.
Context {D P I : Type} (M : methods D P I).

Lemma wait_time_small (n : Z) : 1 <= n <= 5 -> wait_time n = 2 ^ n.
Proof.
  intros Hn.
  assert (n = 1 \/ n = 2 \/ n = 3 \/ n = 4 \/ n = 5) as Hcases by lia.
  by destruct Hcases as [-> | [-> | [-> | [-> | ->]]]].
Qed.

Lemma attempt_reconnect_attempts (c : client D) :
  _reconnect_attempts (_attempt_reconnect (P:=P) c).1
  = if is_disconnecting c then _reconnect_attempts c
    else if _reconnect_attempts c <? _max_reconnect_attempts c
         then _reconnect_attempts c + 1
         else _reconnect_attempts c.
Proof.
  unfold _attempt_reconnect. destruct (is_disconnecting c); [done|].
  by destruct (_ <? _).
Qed.

(** What one call of [_attempt_reconnect] does to the counter and which
    wait it starts: nothing, or the next attempt with its wait. *)
Lemma attempt_reconnect_advance (c : client D) :
  counter_ok c ->
  let r := _attempt_reconnect (P:=P) c in
  (_reconnect_attempts r.1 = _reconnect_attempts c /\ started_waits r.2 = []) \/
  (_reconnect_attempts c < 5 /\
   _reconnect_attempts r.1 = _reconnect_attempts c + 1 /\
   started_waits r.2 = [wait_time (_reconnect_attempts c + 1)]).
Proof.
  intros [Hr Hm]. unfold _attempt_reconnect.
  destruct (is_disconnecting c); [by left|].
  rewrite Hm. destruct (Z.ltb_spec (_reconnect_attempts c) 5) as [Hlt|Hge].
  - right. by repeat split.
  - by left.
Qed.

Lemma connect_advance id o (c : client D) :
  counter_ok c ->
  let r := connect (P:=P) id o c in
  (_reconnect_attempts r.1 = _reconnect_attempts c /\ started_waits r.2 = []) \/
  (_reconnect_attempts c < 5 /\
   _reconnect_attempts r.1 = _reconnect_attempts c + 1 /\
   started_waits r.2 = [wait_time (_reconnect_attempts c + 1)]).
Proof.
  intros Hc. unfold connect, _run_ws. destruct o.
  - by left.
  - pose proof (attempt_reconnect_advance c Hc) as H.
    destruct (_attempt_reconnect c) as [c1 es]. cbn [fst snd] in *.
    rewrite started_waits_app, app_nil_r.
    exact H.
  - pose proof (attempt_reconnect_advance (with_ws (Some id) c) Hc) as H.
    destruct (_attempt_reconnect (with_ws (Some id) c)) as [c1 es].
    cbn [fst snd] in *. rewrite started_waits_app, app_nil_r.
    exact H.
Qed.

Lemma handle_advance (HM : lawful M) ev (w : world D) :
  counter_ok (self w) ->
  is_open_event ev = false ->
  let r := handle M ev w in
  (_reconnect_attempts r.1 = _reconnect_attempts (self w) /\
   started_waits r.2 = []) \/
  (_reconnect_attempts (self w) < 5 /\
   _reconnect_attempts r.1 = _reconnect_attempts (self w) + 1 /\
   started_waits r.2 = [wait_time (_reconnect_attempts (self w) + 1)]).
Proof.
  intros Hc Hev.
  assert (forall i id o,
    let r := m_connect M i id o (self w) in
    (_reconnect_attempts r.1 = _reconnect_attempts (self w) /\
     started_waits r.2 = []) \/
    (_reconnect_attempts (self w) < 5 /\
     _reconnect_attempts r.1 = _reconnect_attempts (self w) + 1 /\
     started_waits r.2 = [wait_time (_reconnect_attempts (self w) + 1)])) as Hconn.
  { intros i id o.
    destruct (law_connect M HM i id o (self w)) as (c0 & es0 & Hl & Hq & ->).
    assert (_reconnect_attempts c0 = _reconnect_attempts (self w)) as Ha
      by exact (f_equal _reconnect_attempts Hl).
    pose proof (connect_advance id o c0 (counter_ok_link _ _ Hl Hc)) as H.
    destruct (connect id o c0) as [c1 es]. cbn [fst snd] in *.
    rewrite started_waits_app, (started_waits_quiet _ Hq), Ha in *.
    exact H. }
  destruct ev as [cb|cb|i o| |m|e| |k i o|ok]; cbn [handle].
  - by left.
  - by left.
  - apply Hconn.
  - discriminate Hev.
  - destruct (law_message M HM m (self w)) as [Hl Hq]. left. split.
    + exact (f_equal _reconnect_attempts Hl).
    + by apply started_waits_quiet.
  - left. unfold _on_error. split; [done|].
    by destruct (on_error_callback (self w)).
  - unfold _on_close.
    destruct (negb (is_disconnecting (with_is_connected false (self w)))).
    + pose proof (attempt_reconnect_advance (with_is_connected false (self w)) Hc) as H.
      destruct (_attempt_reconnect _) as [c1 es]. exact H.
    + by left.
  - destruct (sleepers w !! k); [apply Hconn|by left].
  - destruct (law_disconnect M HM ok (self w)) as [clear ->]. left.
    unfold disconnect. cbn [fst snd]. split; [done|].
    by destruct (ws _), ok.
Qed.

(** As long as the connection does not open, the reconnects that a run
    schedules are the attempts that follow one another from the counter
    at the start to the counter at the end, which never passes 5. *)
Lemma run_progression (HM : lawful M) evs : forall w : world D,
  counter_ok (self w) ->
  Forall (fun ev => is_open_event ev = false) evs ->
  _reconnect_attempts (self w) <= _reconnect_attempts (self (run M evs w).1) <= 5 /\
  started_waits (run M evs w).2
  = wait_time <$> seqZ (_reconnect_attempts (self w) + 1)
                       (_reconnect_attempts (self (run M evs w).1)
                        - _reconnect_attempts (self w)).
Proof.
  induction evs as [|ev evs IH]; intros w Hc Hevs.
  - cbn [run fst snd]. rewrite Z.sub_diag. destruct Hc as [Hc _]. split; [lia|done].
  - apply Forall_cons in Hevs as [Hev Hevs].
    rewrite run_cons_world. cbn [fst snd].
    destruct (handle_counter M HM ev w Hc) as [Hc1 _].
    destruct (step_handle M ev w) as [E1 E2].
    rewrite <- E1 in Hc1.
    destruct (IH _ Hc1 Hevs) as [Hle Hw].
    pose proof (handle_advance HM ev w Hc Hev) as Hadv. cbn zeta in Hadv.
    rewrite <- E1, <- E2 in Hadv.
    rewrite started_waits_app, Hw.
    destruct Hadv as [[Ha ->]|(Hlt & Ha & ->)]; rewrite Ha in *.
    + split; [lia|done].
    + split; [lia|].
      rewrite (seqZ_cons (_reconnect_attempts (self w) + 1)) by lia.
      rewrite fmap_cons. cbn [app]. do 3 f_equal; lia.
Qed.

(** The same for closes in a row on a client that is not disconnecting:
    here the counter at the end is known. *)
Lemma closes_progression (k : nat) : forall w : world D,
  is_disconnecting (self w) = false ->
  counter_ok (self w) ->
  started_waits (run M (replicate k Close) w).2
  = take k (wait_time <$> seqZ (_reconnect_attempts (self w) + 1)
                               (5 - _reconnect_attempts (self w))) /\
  _reconnect_attempts (self (run M (replicate k Close) w).1)
  = Z.min (_reconnect_attempts (self w) + Z.of_nat k) 5.
Proof.
  induction k as [|k IH]; intros w Hd Hc.
  - cbn [replicate run fst snd]. destruct Hc as [Hc _]. split; [done|lia].
  - cbn [replicate]. rewrite run_cons_world. cbn [fst snd].
    destruct (step_handle M Close w) as [E1 E2].
    assert (is_disconnecting (self (step M Close w).1) = false) as Hd1.
    { rewrite E1. cbn [handle]. unfold _on_close, _attempt_reconnect.
      cbn. rewrite Hd. cbn. by destruct (_ <? _). }
    assert (counter_ok (self (step M Close w).1)) as Hc1.
    { rewrite E1. cbn [handle]. by apply on_close_counter. }
    destruct (IH _ Hd1 Hc1) as [Hw Ha].
    rewrite started_waits_app, Hw, Ha, E2.
    assert ((_reconnect_attempts (self w) < 5 /\
             _reconnect_attempts (self (step M Close w).1)
             = _reconnect_attempts (self w) + 1 /\
             started_waits (handle M Close w).2
             = [wait_time (_reconnect_attempts (self w) + 1)]) \/
            (_reconnect_attempts (self w) = 5 /\
             _reconnect_attempts (self (step M Close w).1) = 5 /\
             started_waits (handle M Close w).2 = [])) as Hstep.
    { rewrite E1. cbn [handle]. unfold _on_close, _attempt_reconnect.
      cbn. rewrite Hd. cbn. destruct Hc as [Hr ->].
      destruct (Z.ltb_spec (_reconnect_attempts (self w)) 5) as [Hlt|Hge].
      - left. by repeat split.
      - right. repeat split; first [done | lia | cbn; lia]. }
    destruct Hstep as [(Hlt & -> & ->)|(Hmax & -> & ->)].
    + split; [|lia].
      rewrite (seqZ_cons (_reconnect_attempts (self w) + 1)) by lia.
      rewrite fmap_cons. cbn [app take]. do 4 f_equal; lia.
    + split; [|lia]. rewrite Hmax, seqZ_nil by lia.
      by rewrite fmap_nil, !take_nil.
Qed.

End Progression.

Section BackoffSchedule.
Import StreamClient Props.

(** C3. The wait computed before a reconnect is [min(2 ** n, 60)] seconds
    for the attempt count [n] just reached, and the waits of attempts 1
    to 5 are 2, 4, 8, 16 and 32 seconds. [_attempt_reconnect] raises the
    counter by one when it starts a reconnect and leaves it otherwise.
    In every run of a ticker, depth or kline client from its constructor
    each scheduled reconnect is one of the attempts 1 to 5 with that
    wait. On a new client [k] closes in a row schedule the first [k] of
    the waits 2, 4, 8, 16, 32 and leave the counter at [min(k, 5)], so no
    sixth attempt is scheduled. More generally, in any state that a
    client of the three classes reaches, as long as the connection does
    not open the reconnects that follow are the attempts [a + 1], ...,
    [b] in this order, each with the wait [2 ** n], where [a] is the
    counter before, [b] the counter after, and [b] is at most 5. *)
Theorem backoff_wait_schedule :
  (forall n, wait_time n = Z.min (2 ^ n) 60) /\
  wait_time <$> [1; 2; 3; 4; 5] = [2; 4; 8; 16; 32] /\
  (forall D P (c : client D),
     started_waits (_attempt_reconnect (P:=P) c).2 =
       if is_disconnecting c then []
       else if _reconnect_attempts c <? _max_reconnect_attempts c
            then [Z.min (2 ^ (_reconnect_attempts c + 1)) 60]
            else []) /\
  (forall (RT : PyRuntime) evs,
     Forall backoff_ok
       (run BinanceWebSocketClient.methods evs BinanceWebSocketClient.init).2) /\
  (forall (RT : PyRuntime) n evs,
     Forall backoff_ok
       (run BinanceDepthClient.methods evs (BinanceDepthClient.init n)).2) /\
  (forall (RT : PyRuntime) evs,
     Forall backoff_ok
       (run BinanceKlineClient.methods evs BinanceKlineClient.init).2) /\
  (forall D P (c : client D),
     _reconnect_attempts (_attempt_reconnect (P:=P) c).1 =
       if is_disconnecting c then _reconnect_attempts c
       else if _reconnect_attempts c <? _max_reconnect_attempts c
            then _reconnect_attempts c + 1
            else _reconnect_attempts c) /\
  (forall D P I (M : methods D P I) (d : D) (k : nat),
     started_waits (run M (replicate k Close) (boot d)).2
     = take k [2; 4; 8; 16; 32] /\
     _reconnect_attempts (self (run M (replicate k Close) (boot d)).1)
     = Z.min (Z.of_nat k) 5) /\
  (forall D P I (M : methods D P I) (d : D) (before evs : list (event I)),
     lawful M ->
     Forall (fun ev => is_open_event ev = false) evs ->
     let w := (run M before (boot d)).1 in
     let a := _reconnect_attempts (self w) in
     let b := _reconnect_attempts (self (run M evs w).1) in
     0 <= a <= b /\ b <= 5 /\
     started_waits (run M evs w).2 = (fun n => 2 ^ n) <$> seqZ (a + 1) (b - a)).
Proof.
  assert (Hboot : forall D (d : D), counter_ok (self (boot d)))
    by (intros; unfold counter_ok; simpl; lia).
  split; [done|]. split; [done|]. split.
  { intros D P c. unfold _attempt_reconnect.
    destruct (is_disconnecting c); [done|].
    by destruct (_ <? _). }
  split; [intros; apply (run_counter _ ticker_lawful), Hboot|].
  split; [intros; apply (run_counter _ depth_lawful), Hboot|].
  split; [intros; apply (run_counter _ kline_lawful), Hboot|].
  split; [intros; apply attempt_reconnect_attempts|].
  split.
  - intros D P I M d k.
    destruct (closes_progression M k (boot d) eq_refl (Hboot D d)) as [-> ->].
    split; [done|]. cbn. lia.
  - intros D P I M d before evs HM Hevs w a b.
    destruct (run_counter M HM before (boot d) (Hboot D d)) as [Hc _].
    fold w in Hc.
    destruct (run_progression M HM evs w Hc Hevs) as [Hle Hw].
    fold a b in Hle, Hw. destruct Hc as [Ha _]. fold a in Ha.
    split; [lia|]. split; [lia|]. rewrite Hw.
    apply list_fmap_ext. intros _ n Hn%list_elem_of_lookup_2.
    apply elem_of_seqZ in Hn. apply wait_time_small. lia.
Qed.

End BackoffSchedule.

Section BackoffRuns.
Import StreamClient Props.
#[local] Existing Instance Reference.runtime.

Lemma backoff_wait_schedule_witness :
  Forall (fun ev => is_open_event ev = false) Scenarios.five_failures /\
  (let w := (run Scenarios.ticker [] (boot None)).1 in
   let a := _reconnect_attempts (self w) in
   let b := _reconnect_attempts (self (run Scenarios.ticker Scenarios.five_failures w).1) in
   0 <= a <= b /\ b <= 5 /\
   started_waits (run Scenarios.ticker Scenarios.five_failures w).2
   = (fun n => 2 ^ n) <$> seqZ (a + 1) (b - a)).
Proof.
  assert (Forall (fun ev : event unit => is_open_event ev = false)
                 Scenarios.five_failures) as Hevs by repeat constructor.
  split; [exact Hevs|].
  destruct backoff_wait_schedule as (_ & _ & _ & _ & _ & _ & _ & _ & H).
  apply (H _ _ _ Scenarios.ticker None [] Scenarios.five_failures).
  - apply (ticker_lawful (RT:=Reference.runtime)).
  - exact Hevs.
Defined.

End BackoffRuns.

(** ** The cap of the series and the historical fetch *)

Section SeedAndCap.
Import StreamClient Props BinanceKlineClient.
Context {RT : PyRuntime}.

Lemma push_long (series : list kline) (bar : kline) :
  (100 <= length series)%nat -> length (push series bar) = length series.
Proof.
  intros Hlen. unfold push, set_last.
  destruct (same_candle _ bar); [by rewrite length_insert|].
  cbv zeta. rewrite length_app. simpl.
  destruct (Z.ltb_spec 100 (Z.of_nat (length series + 1))) as [_|Hle]; [|lia].
  rewrite length_drop, length_app. simpl. lia.
Qed.

(** C5 on the code. [_on_message] keeps the series at 100 bars (its
    comment reads: keep last 100 klines for chart), but the historical
    fetch that every [connect] runs appends all the rows it loads to the
    series whatever its length. When the held bars and the loaded rows
    are more than 100 together, the series is longer than 100 after
    [connect], and it is still longer than 100 after any message that
    follows, because a message evicts one bar at most. *)
Theorem seed_fetch_exceeds_cap (data : value) (rows : list value) (id : nat)
    (o : run_outcome) (m : string) (self : state) :
  py_iter data = Some rows ->
  (100 < length (klines (held self)) + length (loaded rows))%nat ->
  let seeded := (connect (HttpBody data) id o self).1 in
  length (klines (held seeded))
  = (length (klines (held self)) + length (loaded rows))%nat /\
  (100 < length (klines (held seeded)))%nat /\
  (100 < length (klines (held (_on_message m seeded).1)))%nat.
Proof.
  intros Hrows Hlong seeded.
  assert (length (klines (held seeded))
          = (length (klines (held self)) + length (loaded rows))%nat) as Hlen.
  { subst seeded. by rewrite connect_klines, Hrows, length_app. }
  split; [done|]. split; [lia|].
  rewrite on_message_klines.
  destruct (json_loads m ≫= bar_of) as [bar|]; [|lia].
  rewrite push_long; lia.
Qed.

End SeedAndCap.

Section SeedAndCapRuns.
Import StreamClient Props BinanceKlineClient.
#[local] Existing Instance Reference.runtime.

Lemma seed_fetch_exceeds_cap_witness :
  let self := StreamClient.self Scenarios.seeded_five_times in
  let seeded :=
    (connect (HttpBody (JArr (Scenarios.row <$> Scenarios.twenty))) 5 Started
             self).1 in
  length (klines (held self)) = 100%nat /\
  length (klines (held seeded)) = 120%nat /\
  (100 < length (klines (held seeded)))%nat /\
  (100 < length (klines (held (_on_message Scenarios.bar_9000000 seeded).1)))%nat.
Proof.
  intros self seeded.
  assert (length (klines (held self)) = 100%nat) as Hheld by reflexivity.
  assert (length (loaded (H:=Reference.runtime)
                         (Scenarios.row <$> Scenarios.twenty)) = 20%nat)
    as Hloaded by reflexivity.
  destruct (seed_fetch_exceeds_cap (RT:=Reference.runtime)
              (JArr (Scenarios.row <$> Scenarios.twenty))
              (Scenarios.row <$> Scenarios.twenty) 5 Started
              Scenarios.bar_9000000 self) as (Hlen & Hgt & Hafter).
  - reflexivity.
  - rewrite Hheld, Hloaded. lia.
  - rewrite Hheld, Hloaded in Hlen.
    split; [exact Hheld|]. split; [exact Hlen|].
    split; [exact Hgt|exact Hafter].
Defined.

End SeedAndCapRuns.
